(** * OAuth sign-in through third-party providers: the Router of
    [src/routes/oauth/index.ts], embedded and verified.

    The router is a chain of middlewares.  An initiation request walks the
    chain down to the Grant engine; the last middleware is the OAuth callback.
    Each middleware is embedded as a computation in a small monad of
    asynchronous effects: a computation transforms the world (session store,
    user store, the effects observed so far) and either resolves to a value or
    rejects, the way an [async] function does. *)

From Stdlib Require Import Ascii.
From stdpp Require Import base option strings list gmap.

Open Scope string_scope.
Open Scope list_scope.

(** ** Values of the JavaScript side *)

(** A query string, parsed: [req.query]. *)
Definition Query : Type := list (string * string).

(** A setting of a provider: a string or an array of strings. *)
Inductive Setting :=
  | Str (s : string)
  | Arr (l : list string).

(** What reading a property of a configuration object gives: [undefined] when
    the name is no property of it, [null], an object with its own fields, or,
    for a name every object inherits, the inherited function or object. *)
Inductive Entry :=
  | Undefined
  | Null
  | Obj (fields : list (string * Setting))
  | Inherited (name : string).

(** [obj.key] *)
Fixpoint field (key : string) (fields : list (string * Setting)) : option Setting :=
  match fields with
  | [] => None
  | (k, v) :: rest => if decide (k = key) then Some v else field key rest
  end.

(** Truthiness, as [!x] and [a || b] read it. *)
Definition truthy_string (s : string) : bool :=
  if decide (s = "") then false else true.

Definition truthy_setting (v : option Setting) : bool :=
  match v with
  | None => false
  | Some (Str s) => truthy_string s
  | Some (Arr _) => true
  end.

Definition truthy_entry (e : Entry) : bool :=
  match e with
  | Obj _ | Inherited _ => true
  | Undefined | Null => false
  end.

(** The names an object literal inherits from [Object.prototype]: reading
    one of them gives a function (the prototype itself for [__proto__]). *)
Definition Object_prototype : list string :=
  ["constructor"; "__proto__"; "hasOwnProperty"; "isPrototypeOf";
   "propertyIsEnumerable"; "toLocaleString"; "toString"; "valueOf";
   "__defineGetter__"; "__defineSetter__"; "__lookupGetter__"; "__lookupSetter__"].

(** [a || b] on strings *)
Definition js_or (a b : string) : string :=
  if truthy_string a then a else b.

(** ** The provider table [PROVIDERS] *)

Section Providers.
(** The environment readers of [@config]. *)
Variable castBooleanEnv : string -> bool.
Variable castStringEnv : string -> string.
Variable castStringArrayEnv : string -> list string -> list string.

(** [s.replace(/\\n/g, '\n')]: every backslash followed by [n] becomes a
    line feed. *)
Fixpoint replace_escaped_newlines (s : string) : string :=
  match s with
  | EmptyString => EmptyString
  | String c rest =>
      match rest with
      | String d rest' =>
          if decide (c = "\"%char /\ d = "n"%char)
          then String "010"%char (replace_escaped_newlines rest')
          else String c (replace_escaped_newlines rest)
      | EmptyString => String c EmptyString
      end
  end.

(** A getter that answers [null] unless the provider's flag is on. *)
Definition when_enabled (flag : string) (fields : list (string * Setting)) : Entry :=
  if negb (castBooleanEnv flag) then Null else Obj fields.

Definition PROVIDERS (name : string) : Entry :=
  if decide (name = "twitter") then
    when_enabled "AUTH_PROVIDER_TWITTER_ENABLED"
      [("consumerKey", Str (castStringEnv "AUTH_PROVIDER_TWITTER_CONSUMER_KEY"));
       ("consumerSecret", Str (castStringEnv "AUTH_PROVIDER_TWITTER_CONSUMER_SECRET"))]
  else if decide (name = "linkedin") then
    when_enabled "AUTH_PROVIDER_LINKEDIN_ENABLED"
      [("clientID", Str (castStringEnv "AUTH_PROVIDER_LINKEDIN_CLIENT_ID"));
       ("clientSecret", Str (castStringEnv "AUTH_PROVIDER_LINKEDIN_CLIENT_SECRET"));
       ("scope", Arr (castStringArrayEnv "AUTH_PROVIDER_LINKEDIN_SCOPE"
                        ["r_emailaddress"; "r_liteprofile"]))]
  else if decide (name = "apple") then
    when_enabled "AUTH_PROVIDER_APPLE_ENABLED"
      [("clientID", Str (castStringEnv "AUTH_PROVIDER_APPLE_CLIENT_ID"));
       ("teamID", Str (castStringEnv "AUTH_PROVIDER_APPLE_TEAM_ID"));
       ("keyID", Str (castStringEnv "AUTH_PROVIDER_APPLE_KEY_ID"));
       ("privateKeyString",
        Str (replace_escaped_newlines (castStringEnv "AUTH_PROVIDER_APPLE_PRIVATE_KEY")));
       ("scope", Arr (castStringArrayEnv "AUTH_PROVIDER_APPLE_SCOPE" ["name"; "email"]))]
  else if decide (name = "windowslive") then
    when_enabled "AUTH_PROVIDER_WINDOWS_LIVE_ENABLED"
      [("clientID", Str (castStringEnv "AUTH_PROVIDER_WINDOWS_LIVE_CLIENT_ID"));
       ("clientSecret", Str (castStringEnv "AUTH_PROVIDER_WINDOWS_LIVE_CLIENT_SECRET"));
       ("scope", Arr (castStringArrayEnv "AUTH_PROVIDER_WINDOWS_LIVE_SCOPE"
                        ["wl.basic"; "wl.emails"]))]
  else if decide (name = "spotify") then
    when_enabled "AUTH_PROVIDER_SPOTIFY_ENABLED"
      [("clientID", Str (castStringEnv "AUTH_PROVIDER_SPOTIFY_CLIENT_ID"));
       ("clientSecret", Str (castStringEnv "AUTH_PROVIDER_SPOTIFY_CLIENT_SECRET"));
       ("scope", Arr (castStringArrayEnv "AUTH_PROVIDER_SPOTIFY_SCOPE"
                        ["user-read-email"; "user-read-private"]))]
  else if decide (name = "gitlab") then
    when_enabled "AUTH_PROVIDER_GITLAB_ENABLED"
      [("clientID", Str (castStringEnv "AUTH_PROVIDER_GITLAB_CLIENT_ID"));
       ("clientSecret", Str (castStringEnv "AUTH_PROVIDER_GITLAB_CLIENT_SECRET"));
       ("baseUrl", Str (castStringEnv "AUTH_PROVIDER_GITLAB_BASE_URL"));
       ("scope", Arr (castStringArrayEnv "AUTH_PROVIDER_GITLAB_SCOPE" ["read_user"]))]
  else if decide (name = "bitbucket") then
    when_enabled "AUTH_PROVIDER_BITBUCKET_ENABLED"
      [("clientID", Str (castStringEnv "AUTH_PROVIDER_BITBUCKET_CLIENT_ID"));
       ("clientSecret", Str (castStringEnv "AUTH_PROVIDER_BITBUCKET_CLIENT_SECRET"))]
  else if decide (name = "strava") then
    when_enabled "AUTH_PROVIDER_STRAVA_ENABLED"
      [("clientID", Str (castStringEnv "AUTH_PROVIDER_STRAVA_CLIENT_ID"));
       ("clientSecret", Str (castStringEnv "AUTH_PROVIDER_STRAVA_CLIENT_SECRET"));
       ("scope", Arr (castStringArrayEnv "AUTH_PROVIDER_STRAVA_SCOPE" ["profile:read_all"]))]
  else if decide (name = "discord") then
    when_enabled "AUTH_PROVIDER_DISCORD_ENABLED"
      [("clientID", Str (castStringEnv "AUTH_PROVIDER_DISCORD_CLIENT_ID"));
       ("clientSecret", Str (castStringEnv "AUTH_PROVIDER_DISCORD_CLIENT_SECRET"));
       ("scope", Arr (castStringArrayEnv "AUTH_PROVIDER_DISCORD_SCOPE" ["identify"; "email"]))]
  else if decide (name = "twitch") then
    when_enabled "AUTH_PROVIDER_TWITCH_ENABLED"
      [("clientID", Str (castStringEnv "AUTH_PROVIDER_TWITCH_CLIENT_ID"));
       ("clientSecret", Str (castStringEnv "AUTH_PROVIDER_TWITCH_CLIENT_SECRET"));
       ("scope", Arr (castStringArrayEnv "AUTH_PROVIDER_TWITCH_SCOPE" ["user:read:email"]))]
  else if decide (name = "azuread") then
    when_enabled "AUTH_PROVIDER_AZUREAD_ENABLED"
      [("clientID", Str (castStringEnv "AUTH_PROVIDER_AZUREAD_CLIENT_ID"));
       ("clientSecret", Str (castStringEnv "AUTH_PROVIDER_AZUREAD_CLIENT_SECRET"));
       ("tenant", Str (castStringEnv "AUTH_PROVIDER_AZUREAD_TENANT"))]
  else if decide (name ∈ Object_prototype) then Inherited name
  else Undefined.
End Providers.

(** ** The data model *)

(** The provider's answer, as Grant leaves it in the session:
    [session.grant.response]. *)
Record GrantResponse := {
  r_profile : option Query;          (* the raw identity payload *)
  r_access_token : option string;
  r_refresh_token : option string;
  r_jwt : option string;
}.

(** [session.grant]: the protocol state Grant keeps between the requests. *)
Record GrantSession := {
  g_provider : option string;
  g_response : option GrantResponse;
}.

(** The handshake session: what the router itself stores ([options],
    [redirectTo]) next to Grant's part.  A missing property is [None]. *)
Record Session := {
  s_grant : option GrantSession;
  s_options : option Query;
  s_redirectTo : option string;
}.

Definition empty_session : Session :=
  {| s_grant := None; s_options := None; s_redirectTo := None |}.

(** The canonical profile a normaliser produces. *)
Record Profile := {
  p_id : string;
  p_email : option string;
  p_displayName : option string;
}.

(** The columns of a user to insert, as [transformOauthProfile] builds them. *)
Record UserInput := {
  ui_email : option string;
  ui_displayName : option string;
  ui_options : Query;
}.

Record User := {
  u_id : string;
  u_columns : UserInput;
}.

(** The link of a provider identity to insert: [userProvider] of
    [insertUserProviderToUser], and an element of [userProviders.data] of
    [insertUser] (there without a user id: the new user's is used). *)
Record UserProviderInput := {
  in_userId : option string;
  in_providerId : string;
  in_providerUserId : string;
  in_accessToken : option string;
  in_refreshToken : option string;
}.

(** A row of [auth.user_providers]. *)
Record UserProvider := {
  up_id : string;
  up_userId : string;
  up_providerId : string;
  up_providerUserId : string;
  up_accessToken : option string;
  up_refreshToken : option string;
}.

(** What the client is answered. *)
Inductive Response :=
  | Redirect (url : string)                                       (* res.redirect(url) *)
  | SendError (code : string) (redirectTo : option string) (forward : bool).
                                     (* sendError(res, code, { redirectTo }, forward) *)

(** The effects of a request, in the order they happen. *)
Inductive Event :=
  | SessionSave (sid : string)
  | SessionDestroy (sid : string)
  | SetCookie (name value : string)
  | ClearCookie (name : string)
  | Warn (message : string)
  | Log (message : string) (accessToken refreshToken jwt : option string)
  | AuthUserProviders (provider providerUserId : string)
  | UpdateAuthUserprovider (id : string) (accessToken refreshToken : option string)
  | GetUserByEmail (email : option string)
  | InsertUserProviderToUser (userProvider : UserProviderInput)
  | InsertUser (user : UserInput) (userProviders : list UserProviderInput)
  | GetNewRefreshToken (userId : string)
  | Respond (r : Response).

(** How the data store takes an insertion: it performs it, answers [null], or
    the request fails. *)
Inductive Verdict :=
  | Accepts
  | AnswersNull
  | Fails (reason : string).

Record Db := {
  users : list User;
  userProviders : list UserProvider;
  on_insert_user_provider : Verdict;
  on_insert_user : Verdict;
}.

Record World := {
  sessions : gmap string Session;    (* the session store *)
  db : Db;                           (* the user store *)
  drawn : nat;                       (* how many random identifiers were drawn *)
  trace : list Event;                (* the effects so far, oldest first *)
}.

#[global] Instance Setting_eq_dec : EqDecision Setting.
Proof. solve_decision. Defined.
#[global] Instance Entry_eq_dec : EqDecision Entry.
Proof. solve_decision. Defined.
#[global] Instance GrantResponse_eq_dec : EqDecision GrantResponse.
Proof. solve_decision. Defined.
#[global] Instance GrantSession_eq_dec : EqDecision GrantSession.
Proof. solve_decision. Defined.
#[global] Instance Session_eq_dec : EqDecision Session.
Proof. solve_decision. Defined.
#[global] Instance UserInput_eq_dec : EqDecision UserInput.
Proof. solve_decision. Defined.
#[global] Instance User_eq_dec : EqDecision User.
Proof. solve_decision. Defined.
#[global] Instance UserProviderInput_eq_dec : EqDecision UserProviderInput.
Proof. solve_decision. Defined.
#[global] Instance UserProvider_eq_dec : EqDecision UserProvider.
Proof. solve_decision. Defined.
#[global] Instance Response_eq_dec : EqDecision Response.
Proof. solve_decision. Defined.
#[global] Instance Event_eq_dec : EqDecision Event.
Proof. solve_decision. Defined.

(** ** The monad of asynchronous effects *)

(** A settled promise. *)
Inductive Outcome (A : Type) :=
  | Resolved (a : A)
  | Rejected (reason : string).
Arguments Resolved {A} a.
Arguments Rejected {A} reason.

Definition Async (A : Type) : Type := World -> Outcome A * World.

#[global] Instance Async_ret : MRet Async :=
  fun A (a : A) w => (Resolved a, w).

(** [throw] *)
Definition reject {A} (reason : string) : Async A := fun w => (Rejected reason, w).

(** [await]: a rejection skips the rest.  With this instance the chain of
    awaits of a handler is written [x ← m; k] and [m;; k]. *)
#[global] Instance Async_bind : MBind Async :=
  fun A B (k : A -> Async B) (m : Async A) w =>
    match m w with
    | (Resolved a, w') => k a w'
    | (Rejected e, w') => (Rejected e, w')
    end.

(** Settle a promise computed outside the world. *)
Definition settle {A} (o : Outcome A) : Async A := fun w => (o, w).

Definition emit (e : Event) : Async unit :=
  fun w => (Resolved tt,
            {| sessions := sessions w; db := db w; drawn := drawn w;
               trace := trace w ++ [e] |}).

Definition get_db : Async Db := fun w => (Resolved (db w), w).

Definition put_db (d : Db) : Async unit :=
  fun w => (Resolved tt,
            {| sessions := sessions w; db := d; drawn := drawn w; trace := trace w |}).

Definition update_sessions (f : gmap string Session -> gmap string Session) : Async unit :=
  fun w => (Resolved tt,
            {| sessions := f (sessions w); db := db w; drawn := drawn w;
               trace := trace w |}).

(** The next value of the random source: the [n]-th draw is [uuidv4 n]. *)
Definition draw (uuidv4 : nat -> string) : Async string :=
  fun w => (Resolved (uuidv4 (drawn w)),
            {| sessions := sessions w; db := db w; drawn := S (drawn w);
               trace := trace w |}).

(** ** What the router is given *)

(** The collaborators the router imports and calls but does not define:
    environment and configuration, validation rules, the provider-specific
    helpers of [./utils], the random source and the Grant engine.  The router
    is verified for every choice of them. *)
Class Collaborators := {
  ENV_AUTH_CLIENT_URL : string;                  (* ENV.AUTH_CLIENT_URL *)
  SESSION_NAME : string;
  uuidv4 : nat -> string;                        (* the n-th identifier drawn *)
  config : string -> Entry;                      (* config[provider] *)
  redirectToRule : Query -> option string;       (* redirectToRule.validate(query, ..).value *)
  queryValidator : Query -> Response + Query;    (* answers, or passes the query on *)
  preRequestProviderMiddleware : string -> Query -> Response + Query;
  grant_connect : string -> Query -> GrantSession * string;
                     (* the engine's protocol state and the provider's page *)
  normaliseProfile : string -> GrantResponse -> Outcome Profile;
  transformOauthProfile : Profile -> option Query -> Outcome UserInput;
  error_message : string -> string;              (* the description of an error code *)
}.

(** ** The stores and helpers behind the router *)

(** The text of a query string: [k1=v1&k2=v2]. *)
Fixpoint query_string (parameters : Query) : string :=
  match parameters with
  | [] => ""
  | [(k, v)] => k +:+ "=" +:+ v
  | (k, v) :: rest => k +:+ "=" +:+ v +:+ "&" +:+ query_string rest
  end.

(** Modelled from the spec: [generateRedirectUrl] of [@/utils] is not part of
    the sources at hand.  The redirect target comes back as the base of the
    URL, with only query parameters appended. *)
Definition generateRedirectUrl (redirectTo : string) (parameters : Query) : string :=
  redirectTo +:+ "?" +:+ query_string parameters.

Section Helpers.
Context `{Collaborators}.

Definition redirect (url : string) : Async Response :=
  emit (Respond (Redirect url));; mret (Redirect url).

(** Modelled from the spec: [sendError] of [@/errors] is not part of the
    sources at hand.  With a redirect target to forward to, a failure is
    answered by a redirect to that target carrying the error code and a
    description as query parameters ([location] below); the answer is
    recorded with the arguments of the call. *)
Definition sendError (code : string) (redirectTo : option string) (forward : bool)
  : Async Response :=
  emit (Respond (SendError code redirectTo forward));;
  mret (SendError code redirectTo forward).

(** Modelled from the spec: the redirect the absent [sendError] answers
    with.  Where an answer sends the browser. *)
Definition location (r : Response) : option string :=
  match r with
  | Redirect url => Some url
  | SendError code (Some redirectTo) true =>
      Some (generateRedirectUrl redirectTo
              [("error", code); ("errorDescription", error_message code)])
  | SendError _ _ _ => None
  end.

(** *** The session store *)

(** Modelled from the spec: [SessionStore] of [./session-store] is not part of
    the sources at hand.  The transaction store keeps handshake sessions by
    identifier: load answers the session or not-found, save writes it, destroy
    removes it and is idempotent. *)
Definition store_load (sid : string) : Async (option Session) :=
  fun w => (Resolved (sessions w !! sid), w).

(** Modelled from the spec: [save] of the absent [SessionStore] writes the
    session under its identifier.  The save is taken to succeed: the outcome
    [failed] of the spec, which the router would hand to [next] as an error,
    has no run here, so nothing below speaks for a store that fails. *)
Definition store_save (sid : string) (s : Session) : Async unit :=
  emit (SessionSave sid);; update_sessions (insert sid s).

(** Modelled from the spec: [destroy] of the absent [SessionStore] removes
    the session; destroying an unknown identifier is not an error. *)
Definition store_destroy (sid : string) : Async unit :=
  emit (SessionDestroy sid);; update_sessions (delete sid).

(** [res.clearCookie(name)] *)
Definition clearCookie (name : string) : Async unit := emit (ClearCookie name).

(** *** The user store *)

Definition find_user (d : Db) (id : string) : option User :=
  List.find (fun u => bool_decide (u_id u = id)) (users d).

Definition find_user_by_email (d : Db) (email : string) : option User :=
  List.find (fun u => bool_decide (ui_email (u_columns u) = Some email)) (users d).

(** A row of the [authUserProviders] query: the link's identifier and the
    user it belongs to. *)
Record AuthUserProviderRow := {
  row_id : string;
  row_user : option User;
}.

Definition identifies (provider providerUserId : string) (l : UserProvider) : bool :=
  bool_decide (up_providerId l = provider) && bool_decide (up_providerUserId l = providerUserId).

Definition set_tokens (id : string) (accessToken refreshToken : option string)
    (l : UserProvider) : UserProvider :=
  if decide (up_id l = id)
  then {| up_id := up_id l; up_userId := up_userId l; up_providerId := up_providerId l;
          up_providerUserId := up_providerUserId l;
          up_accessToken := accessToken; up_refreshToken := refreshToken |}
  else l.

Definition with_tables (d : Db) (us : list User) (ls : list UserProvider) : Db :=
  {| users := us; userProviders := ls;
     on_insert_user_provider := on_insert_user_provider d;
     on_insert_user := on_insert_user d |}.

(** The data-access API [gqlSdk] and the helpers [getUserByEmail],
    [insertUser] and [getNewRefreshToken] of [@/utils] are not part of the
    sources at hand; the user store below follows the spec: it keeps users
    and provider links; a link is found by its pair (provider, provider user
    id), a user by email when the profile has one; an update rewrites the
    tokens of the link with the given identifier; an insertion appends a row
    under a fresh identifier, or answers nothing, or fails, as the store
    decides. *)

(** Modelled from the spec: the query [authUserProviders] of the absent
    [gqlSdk] answers the links of the pair, each with its user. *)
Definition gqlSdk_authUserProviders (provider providerUserId : string)
  : Async (list AuthUserProviderRow) :=
  emit (AuthUserProviders provider providerUserId);;
  d ← get_db;
  mret ((fun l => {| row_id := up_id l; row_user := find_user d (up_userId l) |})
          <$> filter (identifies provider providerUserId) (userProviders d)).

(** Modelled from the spec: the mutation [updateAuthUserprovider] of the
    absent [gqlSdk] stores the given tokens in the link with that identifier. *)
Definition gqlSdk_updateAuthUserprovider (id : string) (accessToken refreshToken : option string)
  : Async unit :=
  emit (UpdateAuthUserprovider id accessToken refreshToken);;
  d ← get_db;
  put_db (with_tables d (users d) (set_tokens id accessToken refreshToken <$> userProviders d)).

(** Modelled from the spec: [getUserByEmail] of the absent [@/utils] looks a
    user up by the profile's email, if present. *)
Definition getUserByEmail (email : option string) : Async (option User) :=
  emit (GetUserByEmail email);;
  d ← get_db;
  mret (match email with
        | Some e => find_user_by_email d e
        | None => None
        end).

Definition new_link (id userId : string) (i : UserProviderInput) : UserProvider :=
  {| up_id := id; up_userId := userId; up_providerId := in_providerId i;
     up_providerUserId := in_providerUserId i;
     up_accessToken := in_accessToken i; up_refreshToken := in_refreshToken i |}.

(** Modelled from the spec: the mutation [insertUserProviderToUser] of the
    absent [gqlSdk] creates a link for an existing user and answers it, or
    answers nothing when the creation fails. *)
Definition gqlSdk_insertUserProviderToUser (userProvider : UserProviderInput)
  : Async (option UserProvider) :=
  emit (InsertUserProviderToUser userProvider);;
  d ← get_db;
  match on_insert_user_provider d, in_userId userProvider with
  | Accepts, Some userId =>
      id ← draw uuidv4;
      let row := new_link id userId userProvider in
      put_db (with_tables d (users d) (userProviders d ++ [row]));;
      mret (Some row)
  | Accepts, None => reject "null value in column user_id"
  | AnswersNull, _ => mret None
  | Fails e, _ => reject e
  end.

(** The links nested in an [insertUser], each under its own fresh identifier
    and owned by the new user. *)
Fixpoint nested_links (userId : string) (data : list UserProviderInput)
  : Async (list UserProvider) :=
  match data with
  | [] => mret []
  | i :: rest =>
      id ← draw uuidv4;
      rows ← nested_links userId rest;
      mret (new_link id userId i :: rows)
  end.

(** Modelled from the spec: [insertUser] of the absent [@/utils] creates the
    user together with its provider links in one operation. *)
Definition insertUser (user : UserInput) (data : list UserProviderInput)
  : Async (option User) :=
  emit (InsertUser user data);;
  d ← get_db;
  match on_insert_user d with
  | Accepts =>
      id ← draw uuidv4;
      rows ← nested_links id data;
      let row := {| u_id := id; u_columns := user |} in
      put_db (with_tables d (users d ++ [row]) (userProviders d ++ rows));;
      mret (Some row)
  | AnswersNull => mret None
  | Fails e => reject e
  end.

(** Modelled from the spec: [getNewRefreshToken] of the absent [@/utils]
    obtains a fresh refresh token for the user. *)
Definition getNewRefreshToken (userId : string) : Async string :=
  emit (GetNewRefreshToken userId);; draw uuidv4.

End Helpers.

(** ** The router [oauthProviders] *)

(** An incoming request: the session cookie it carries, the [:provider] of
    its path and its query. *)
Record Request := {
  cookie : option string;
  provider_param : string;
  query : Query;
}.

(** The options the session middleware is created with. *)
Record SessionOptions := {
  resave : bool;
  saveUninitialized : bool;
}.

Definition session_options : SessionOptions :=
  {| resave := false; saveUninitialized := true |}.

(** [req.session] of a request: its identifier, its content when the request
    came in, and whether the middleware has just generated it. *)
Record RequestSession := {
  sid : string;
  loaded : Session;
  fresh : bool;
}.

(** What the Grant engine does with a request on a provider path: it sends
    the browser to the provider, keeping its protocol state in
    [session.grant]; or, on the provider's return, it has the protocol result
    in [session.grant] and calls [next]. *)
Inductive EngineStep :=
  | ToProvider (state : GrantSession) (url : string)
  | Completed (result : GrantSession).

Section Router.
Context `{Collaborators}.

(** *** The session middleware

    [express-session] under the options above.  On the way in it loads the
    session the cookie names, or generates one with [genid] when the cookie
    is missing or names nothing in the store.  When the response is written
    and the session was not destroyed, a generated session gets its cookie
    if [saveUninitialized] is on or the session was modified, and a session
    is written to the store if it was modified (or, when unmodified, because
    [saveUninitialized] or [resave] asks for it).  The cookie travels with
    the answer; the trace records it right after the answer. *)
Definition session_generate : Async RequestSession :=
  id ← draw uuidv4;
  mret {| sid := id; loaded := empty_session; fresh := true |}.

Definition session_open (cookie : option string) : Async RequestSession :=
  match cookie with
  | None => session_generate
  | Some id =>
      found ← store_load id;
      match found with
      | Some s => mret {| sid := id; loaded := s; fresh := false |}
      | None => session_generate
      end
  end.

Definition session_close (o : SessionOptions) (rs : RequestSession) (now : Session)
  : Async unit :=
  let modified := bool_decide (now ≠ loaded rs) in
  (if fresh rs && (saveUninitialized o || modified)
   then emit (SetCookie SESSION_NAME (sid rs))
   else mret tt);;
  if modified || (if fresh rs then saveUninitialized o else resave o)
  then store_save (sid rs) now
  else mret tt.

(** *** Validate the provider configuration *)

Definition entry_field (key : string) (e : Entry) : option Setting :=
  match e with
  | Obj fields => field key fields
  | Undefined | Null | Inherited _ => None
  end.

(** Answers [Some] response when it ends the request, [None] when it calls
    [next]. *)
Definition validate_provider (provider : string) (redirectTo : option string)
  : Async (option Response) :=
  let providerConfig := config provider in
  if negb (truthy_entry providerConfig) then
    r ← sendError "disabled-endpoint" redirectTo true; mret (Some r)
  else if negb (truthy_setting (entry_field "client_id" providerConfig))
          || negb (truthy_setting (entry_field "client_secret" providerConfig)) then
    emit (Warn ("Missing client id or secret for provider " +:+ provider));;
    r ← sendError "invalid-oauth-configuration" redirectTo true; mret (Some r)
  else mret None.

(** *** Save the initial query and the redirection url into the session *)

Definition save_handshake (id : string) (session : Session) (query : Query)
    (redirectTo : option string) : Async Session :=
  let session := {| s_grant := s_grant session; s_options := Some query;
                    s_redirectTo := redirectTo |} in
  store_save id session;;
  mret session.

(** *** An initiation request, down the chain to the Grant engine

    The middlewares in the order the router mounts them; each either answers,
    which ends the request, or calls [next].  The engine, reached last, keeps
    its protocol state in [session.grant] and redirects to the provider. *)

Definition initiation (req : Request) : Async Response :=
  rs ← session_open (cookie req);
  let provider := provider_param req in
  let redirectTo := redirectToRule (query req) in
  answered ← validate_provider provider redirectTo;
  match answered with
  | Some r => session_close session_options rs (loaded rs);; mret r
  | None =>
      match queryValidator (query req) with
      | inl r => emit (Respond r);; session_close session_options rs (loaded rs);; mret r
      | inr query =>
          match preRequestProviderMiddleware provider query with
          | inl r => emit (Respond r);; session_close session_options rs (loaded rs);; mret r
          | inr query =>
              session ← save_handshake (sid rs) (loaded rs) query redirectTo;
              let '(state, url) := grant_connect provider query in
              let session := {| s_grant := Some state; s_options := s_options session;
                                s_redirectTo := s_redirectTo session |} in
              r ← redirect url;
              session_close session_options rs session;;
              mret r
          end
      end
  end.

(** *** The OAuth callback

    The last middleware of the chain.  It runs once the engine has completed
    the protocol and left its result in [session.grant]; [id] and [session]
    are the identifier and the content of [req.session] at that point.  The
    session being destroyed first, the session middleware has nothing to
    save or to set when the response is written. *)

(** The end of the callback: a refresh token for the user found or created,
    or the error redirect when there is none. *)
Definition conclude (redirectTo provider : string) (user : option User) : Async Response :=
  match user with
  | Some user =>
      refreshToken ← getNewRefreshToken (u_id user);
      redirect (redirectTo +:+ "?refreshToken=" +:+ refreshToken)
  | None =>
      redirect (generateRedirectUrl redirectTo
                  [("error", js_or "error" "invalid-request");
                   ("provider", provider);
                   ("errorDescription", js_or "error_description" "OAuth request cancelled")])
  end.

Definition truthy_provider (provider : option string) : option string :=
  match provider with
  | Some p => if truthy_string p then Some p else None
  | None => None
  end.

Definition oauth_callback (id : string) (session : Session) : Async Response :=
  let grant := s_grant session in
  let options := s_options session in
  let redirectTo := default ENV_AUTH_CLIENT_URL (s_redirectTo session) in
  (* Destroy the session as it is only needed for the oauth flow *)
  store_destroy id;;
  clearCookie SESSION_NAME;;
  let response := grant ≫= g_response in
  let provider := grant ≫= g_provider in
  match response, truthy_provider provider with
  | None, _ | _, None => sendError "internal-error" (Some redirectTo) true
  | Some response, Some provider =>
      match r_profile response with
      | None =>
          emit (Warn "No Oauth profile in the session");;
          sendError "internal-error" (Some redirectTo) true
      | Some _ =>
          profile ← settle (normaliseProfile provider response);
          let providerUserId := p_id profile in
          let accessToken := r_access_token response in
          let refreshToken := r_refresh_token response in
          let jwt := r_jwt response in
          emit (Log "From the prodiver:" accessToken refreshToken jwt);;
          (* Look for the user-provider *)
          rows ← gqlSdk_authUserProviders provider providerUserId;
          match head rows with
          | Some authUserProvider =>
              (* The userProvider already exists. Update it with the new tokens *)
              let user := row_user authUserProvider in
              gqlSdk_updateAuthUserprovider (row_id authUserProvider) accessToken refreshToken;;
              conclude redirectTo provider user
          | None =>
              user ← getUserByEmail (p_email profile);
              match user with
              | Some user =>
                  (* add this provider to existing user with the same email *)
                  insertAuthUserProvider ←
                    gqlSdk_insertUserProviderToUser
                      {| in_userId := Some (u_id user); in_providerId := provider;
                         in_providerUserId := providerUserId;
                         in_accessToken := accessToken; in_refreshToken := refreshToken |};
                  match insertAuthUserProvider with
                  | None =>
                      emit (Warn "Could not add a provider to user");;
                      sendError "internal-error" (Some redirectTo) true
                  | Some _ => conclude redirectTo provider (Some user)
                  end
              | None =>
                  (* No user found with this email. Create a new user *)
                  userInput ← settle (transformOauthProfile profile options);
                  user ← insertUser userInput
                           [{| in_userId := None; in_providerId := provider;
                               in_providerUserId := providerUserId;
                               in_accessToken := accessToken;
                               in_refreshToken := refreshToken |}];
                  conclude redirectTo provider user
              end
          end
      end
  end.

(** *** A request on a provider path, through the whole router

    The middlewares above are mounted with [use] on
    [OAUTH_ROUTE/:provider]: they run for every path under it, the path
    [OAUTH_ROUTE/:provider/callback] the provider returns to included.  So a
    request walks them in order, whichever leg of the handshake it is, before
    it reaches the engine; the engine decides, from the request and from what
    the session holds of the protocol, to go to the provider or to pass the
    completed protocol on to the callback. *)
Definition oauthProviders (engine : string -> Query -> option GrantSession -> EngineStep)
    (req : Request) : Async Response :=
  rs ← session_open (cookie req);
  let provider := provider_param req in
  let redirectTo := redirectToRule (query req) in
  answered ← validate_provider provider redirectTo;
  match answered with
  | Some r => session_close session_options rs (loaded rs);; mret r
  | None =>
      match queryValidator (query req) with
      | inl r => emit (Respond r);; session_close session_options rs (loaded rs);; mret r
      | inr query =>
          match preRequestProviderMiddleware provider query with
          | inl r => emit (Respond r);; session_close session_options rs (loaded rs);; mret r
          | inr query =>
              session ← save_handshake (sid rs) (loaded rs) query redirectTo;
              match engine provider query (s_grant session) with
              | ToProvider state url =>
                  let session := {| s_grant := Some state; s_options := s_options session;
                                    s_redirectTo := s_redirectTo session |} in
                  r ← redirect url;
                  session_close session_options rs session;;
                  mret r
              | Completed result =>
                  oauth_callback (sid rs)
                    {| s_grant := Some result; s_options := s_options session;
                       s_redirectTo := s_redirectTo session |}
              end
          end
      end
  end.

End Router.

(** ** Observing a run *)

(** The events a run can be asked about. *)
Definition is_creation (e : Event) : bool :=
  match e with
  | InsertUser _ _ | InsertUserProviderToUser _ => true
  | _ => false
  end.

Definition is_email_lookup (e : Event) : bool :=
  match e with
  | GetUserByEmail _ => true
  | _ => false
  end.

Definition is_response (e : Event) : bool :=
  match e with
  | Respond _ => true
  | _ => false
  end.

Definition is_warning (e : Event) : bool :=
  match e with
  | Warn _ => true
  | _ => false
  end.

Definition is_set_cookie (e : Event) : bool :=
  match e with
  | SetCookie _ _ => true
  | _ => false
  end.

(** The answers among the events of a run. *)
Definition filter_response (events : list Event) : list Response :=
  omap (fun e => match e with Respond r => Some r | _ => None end) events.

(** The error codes the interface documents. *)
Definition surfaced_codes : list string :=
  ["disabled-endpoint"; "invalid-oauth-configuration"; "invalid-request"; "internal-error"].

(** Reading a URL back: the text before and after the first [c]. *)
Fixpoint split_at (c : ascii) (s : string) : string * option string :=
  match s with
  | EmptyString => (EmptyString, None)
  | String a rest =>
      if decide (a = c) then (EmptyString, Some rest)
      else let '(before, after) := split_at c rest in (String a before, after)
  end.

(** The pieces of [s] between the occurrences of [c]. *)
Fixpoint split_all (c : ascii) (s : string) : list string :=
  match s with
  | EmptyString => [EmptyString]
  | String a rest =>
      if decide (a = c) then EmptyString :: split_all c rest
      else match split_all c rest with
           | piece :: pieces => String a piece :: pieces
           | [] => [String a EmptyString]
           end
  end.

Definition parse_query (text : string) : Query :=
  (fun piece => let '(k, v) := split_at "="%char piece in (k, default "" v))
    <$> split_all "&"%char text.

Definition query_of_url (url : string) : Query :=
  match split_at "?"%char url with
  | (_, Some text) => parse_query text
  | (_, None) => []
  end.

Fixpoint parameter (key : string) (q : Query) : option string :=
  match q with
  | [] => None
  | (k, v) :: rest => if decide (k = key) then Some v else parameter key rest
  end.

(** The error code the client finds attached to an answer. *)
Definition attached_error (r : Response) : option string :=
  match r with
  | SendError code _ _ => Some code
  | Redirect url => parameter "error" (query_of_url url)
  end.

(** A computation is quiet when it leaves the session store alone and only
    adds to the trace. *)
Definition quiet {A} (m : Async A) : Prop :=
  forall w o w', m w = (o, w') ->
    sessions w' = sessions w /\ trace w `prefix_of` trace w'.

(** [url] is [target] with query parameters appended, under the names [keys]. *)
Definition appends (target : string) (keys : list string) (url : string) : Prop :=
  exists parameters : Query,
    parameters.*1 = keys /\ url = target +:+ "?" +:+ query_string parameters.

Section Observations.
Context `{Collaborators}.

(** An answer comes back to [target]: it sends the browser to [target] with
    only query parameters appended, the refresh token on success, the error
    with its description (and the provider, where the router knows it) on
    failure. *)
Definition comes_back_to (target : string) (r : Response) : Prop :=
  exists url keys,
    location r = Some url /\ appends target keys url /\
    (keys = ["refreshToken"] \/
     ("error" ∈ keys /\ keys ⊆ ["error"; "provider"; "errorDescription"])).

(** Every answer a computation resolves to comes back to [target]. *)
Definition answers_to (target : string) (m : Async Response) : Prop :=
  forall w r w', m w = (Resolved r, w') -> comes_back_to target r.

(** An initiation request gets through to the engine: the provider is
    configured with its credentials and the two validations pass the query
    on, as [query'] in the end. *)
Definition reaches_engine (req : Request) (query' : Query) : Prop :=
  let providerConfig := config (provider_param req) in
  truthy_entry providerConfig = true /\
  truthy_setting (entry_field "client_id" providerConfig) = true /\
  truthy_setting (entry_field "client_secret" providerConfig) = true /\
  exists validated,
    queryValidator (query req) = inr validated /\
    preRequestProviderMiddleware (provider_param req) validated = inr query'.

(** The protocol is complete: the session holds the provider and its
    response, the response holds a raw profile, and the normaliser turns it
    into [profile]. *)
Definition protocol_complete (session : Session) (provider : string)
    (response : GrantResponse) (profile : Profile) : Prop :=
  exists g raw,
    s_grant session = Some g /\
    g_response g = Some response /\
    truthy_provider (g_provider g) = Some provider /\
    r_profile response = Some raw /\
    normaliseProfile provider response = Resolved profile.

(** The link the callback asks the store to create. *)
Definition link_request (userId : option string) (provider : string)
    (response : GrantResponse) (profile : Profile) : UserProviderInput :=
  {| in_userId := userId; in_providerId := provider;
     in_providerUserId := p_id profile;
     in_accessToken := r_access_token response;
     in_refreshToken := r_refresh_token response |}.

(** The effects every complete callback starts with. *)
Definition preamble (id provider : string) (response : GrantResponse) (profile : Profile)
  : list Event :=
  [SessionDestroy id; ClearCookie SESSION_NAME;
   Log "From the prodiver:" (r_access_token response) (r_refresh_token response)
     (r_jwt response);
   AuthUserProviders provider (p_id profile)].

(** Where the callback sends the browser when it ends without a user. *)
Definition cancelled_url (redirectTo provider : string) : string :=
  generateRedirectUrl redirectTo
    [("error", "error"); ("provider", provider);
     ("errorDescription", "error_description")].

End Observations.

(** ** More to observe *)

Definition is_session_save (e : Event) : bool :=
  match e with
  | SessionSave _ => true
  | _ => false
  end.

Definition is_token_request (e : Event) : bool :=
  match e with
  | GetNewRefreshToken _ => true
  | _ => false
  end.

(** The answer a settled handler resolved to, if it did. *)
Definition answer_of (o : Outcome Response) : list Response :=
  match o with
  | Resolved answer => [answer]
  | Rejected _ => []
  end.

(** What a link is, its tokens apart. *)
Definition link_identity (l : UserProvider) : string * string * string * string :=
  (up_id l, up_userId l, up_providerId l, up_providerUserId l).

(** An escaped line feed, a backslash followed by [n], occurs in the string. *)
Fixpoint has_escaped_newline (s : string) : bool :=
  match s with
  | EmptyString => false
  | String c rest =>
      match rest with
      | String d _ =>
          bool_decide (c = "\"%char /\ d = "n"%char) || has_escaped_newline rest
      | EmptyString => false
      end
  end.

(** The flag each getter of [PROVIDERS] reads. *)
Definition provider_flags : list (string * string) :=
  [("twitter", "AUTH_PROVIDER_TWITTER_ENABLED");
   ("linkedin", "AUTH_PROVIDER_LINKEDIN_ENABLED");
   ("apple", "AUTH_PROVIDER_APPLE_ENABLED");
   ("windowslive", "AUTH_PROVIDER_WINDOWS_LIVE_ENABLED");
   ("spotify", "AUTH_PROVIDER_SPOTIFY_ENABLED");
   ("gitlab", "AUTH_PROVIDER_GITLAB_ENABLED");
   ("bitbucket", "AUTH_PROVIDER_BITBUCKET_ENABLED");
   ("strava", "AUTH_PROVIDER_STRAVA_ENABLED");
   ("discord", "AUTH_PROVIDER_DISCORD_ENABLED");
   ("twitch", "AUTH_PROVIDER_TWITCH_ENABLED");
   ("azuread", "AUTH_PROVIDER_AZUREAD_ENABLED")].

Section Sessions.
Context `{Collaborators}.

(** The session a request is given: the one its cookie names in the store,
    under the cookie's identifier, or else a generated one. *)
Definition session_of (req : Request) (w : World) : RequestSession :=
  match cookie req with
  | Some id =>
      match sessions w !! id with
      | Some s => {| sid := id; loaded := s; fresh := false |}
      | None => {| sid := uuidv4 (drawn w); loaded := empty_session; fresh := true |}
      end
  | None => {| sid := uuidv4 (drawn w); loaded := empty_session; fresh := true |}
  end.

(** What closing an untouched session adds to a run: nothing for a session
    of the store, the cookie and the saving for a generated one. *)
Definition untouched_close (rs : RequestSession) : list Event :=
  if fresh rs then [SetCookie SESSION_NAME (sid rs); SessionSave (sid rs)] else [].

Definition untouched_store (rs : RequestSession) (w : World) : gmap string Session :=
  if fresh rs then <[sid rs := empty_session]> (sessions w) else sessions w.

End Sessions.

(** ** A deployment to run the router on *)

Module Example.

(** Only GitLab is switched on in the environment. *)
Definition castBooleanEnv (flag : string) : bool :=
  bool_decide (flag = "AUTH_PROVIDER_GITLAB_ENABLED").

Definition castStringEnv (name : string) : string :=
  if decide (name = "AUTH_PROVIDER_GITLAB_CLIENT_ID") then "gitlab-client" else "".

Definition castStringArrayEnv (name : string) (fallback : list string) : list string :=
  fallback.

(** A normaliser that needs the [id] of the raw profile. *)
Definition normalise (provider : string) (response : GrantResponse) : Outcome Profile :=
  match r_profile response ≫= parameter "id" with
  | Some id =>
      Resolved {| p_id := id;
                  p_email := r_profile response ≫= parameter "email";
                  p_displayName := r_profile response ≫= parameter "name" |}
  | None => Rejected "profile-missing"
  end.

Definition collaborators : Collaborators := {|
  ENV_AUTH_CLIENT_URL := "https://client.example";
  SESSION_NAME := "connect.sid";
  uuidv4 := fun n => "uuid-" +:+ String (ascii_of_nat (48 + n)) "";
  config := fun provider =>
    if decide (provider = "github")
    then Obj [("client_id", Str "github-client"); ("client_secret", Str "github-secret")]
    else PROVIDERS castBooleanEnv castStringEnv castStringArrayEnv provider;
  redirectToRule := parameter "redirectTo";
  queryValidator := inr;
  preRequestProviderMiddleware := fun _ q => inr q;
  grant_connect := fun provider _ =>
    ({| g_provider := Some provider; g_response := None |},
     "https://provider.example/authorize");
  normaliseProfile := normalise;
  transformOauthProfile := fun profile options =>
    Resolved {| ui_email := p_email profile; ui_displayName := p_displayName profile;
                ui_options := default [] options |};
  error_message := fun code => code;
|}.

Definition target : string := "https://app.example/finish".

Definition ada : User :=
  {| u_id := "user-ada";
     u_columns := {| ui_email := Some "ada@example.org"; ui_displayName := Some "Ada";
                     ui_options := [] |} |}.

Definition grace : User :=
  {| u_id := "user-grace";
     u_columns := {| ui_email := Some "grace@example.org"; ui_displayName := Some "Grace";
                     ui_options := [] |} |}.

Definition ada_on_github : UserProvider :=
  {| up_id := "link-1"; up_userId := "user-ada"; up_providerId := "github";
     up_providerUserId := "42"; up_accessToken := Some "old-access";
     up_refreshToken := Some "old-refresh" |}.

Definition store (us : list User) (ls : list UserProvider) (link user : Verdict) : Db :=
  {| users := us; userProviders := ls;
     on_insert_user_provider := link; on_insert_user := user |}.

(** The provider's answer for the identity 42, with or without parts. *)
Definition answer (raw : option Query) : GrantResponse :=
  {| r_profile := raw; r_access_token := Some "new-access";
     r_refresh_token := Some "new-refresh"; r_jwt := None |}.

Definition raw_ada : Query := [("id", "42"); ("email", "ada@example.org")].

(** The identity 42 again, after its email changed on the provider's side to
    that of another local user. *)
Definition raw_moved : Query := [("id", "42"); ("email", "grace@example.org")].

Definition handshake (redirectTo : option string) (response : option GrantResponse) : Session :=
  {| s_grant := Some {| g_provider := Some "github"; g_response := response |};
     s_options := Some [("locale", "en")];
     s_redirectTo := redirectTo |}.

(** A world in which the handshake session [sid-1] is pending. *)
Definition world (session : Session) (d : Db) : World :=
  {| sessions := {[ "sid-1" := session ]}; db := d; drawn := 0; trace := [] |}.

Definition empty_world : World :=
  {| sessions := ∅; db := store [] [] Accepts Accepts; drawn := 0; trace := [] |}.

Definition request (provider : string) : Request :=
  {| cookie := None; provider_param := provider;
     query := [("redirectTo", target)] |}.

(** The same deployment with a validation of the query that refuses the
    parameter [admin]. *)
Definition refuse_admin (q : Query) : Response + Query :=
  match parameter "admin" q with
  | Some _ => inl (SendError "invalid-request" None false)
  | None => inr q
  end.

Definition strict : Collaborators := {|
  ENV_AUTH_CLIENT_URL := ENV_AUTH_CLIENT_URL (Collaborators := collaborators);
  SESSION_NAME := SESSION_NAME (Collaborators := collaborators);
  uuidv4 := uuidv4 (Collaborators := collaborators);
  config := config (Collaborators := collaborators);
  redirectToRule := redirectToRule (Collaborators := collaborators);
  queryValidator := refuse_admin;
  preRequestProviderMiddleware :=
    preRequestProviderMiddleware (Collaborators := collaborators);
  grant_connect := grant_connect (Collaborators := collaborators);
  normaliseProfile := normaliseProfile (Collaborators := collaborators);
  transformOauthProfile := transformOauthProfile (Collaborators := collaborators);
  error_message := error_message (Collaborators := collaborators);
|}.

End Example.

(** ** Reasoning about runs *)

Lemma bind_run {A B} (m : Async A) (k : A -> Async B) (w : World) :
  (m ≫= k) w =
    match m w with
    | (Resolved a, w') => k a w'
    | (Rejected e, w') => (Rejected e, w')
    end.
Proof. reflexivity. Qed.

Lemma quiet_ret {A} (a : A) : quiet (mret a).
Proof. intros w o w' [= <- <-]. done. Qed.

Lemma quiet_reject {A} (e : string) : quiet (@reject A e).
Proof. intros w o w' [= <- <-]. done. Qed.

Lemma quiet_settle {A} (o : Outcome A) : quiet (settle o).
Proof. intros w o' w' [= <- <-]. done. Qed.

Lemma quiet_emit (e : Event) : quiet (emit e).
Proof. intros w o w' [= <- <-]. split; [done | by apply prefix_app_r]. Qed.

Lemma quiet_get_db : quiet get_db.
Proof. intros w o w' [= <- <-]. done. Qed.

Lemma quiet_put_db (d : Db) : quiet (put_db d).
Proof. intros w o w' [= <- <-]. done. Qed.

Lemma quiet_draw (source : nat -> string) : quiet (draw source).
Proof. intros w o w' [= <- <-]. done. Qed.

Lemma quiet_bind {A B} (m : Async A) (k : A -> Async B) :
  quiet m -> (forall a, quiet (k a)) -> quiet (m ≫= k).
Proof.
  intros Hm Hk w o w'. rewrite bind_run.
  destruct (m w) as [[a|e] w1] eqn:Em; destruct (Hm _ _ _ Em) as [Hs Ht].
  - intros Ek. destruct (Hk _ _ _ _ Ek) as [Hs' Ht']. split; [congruence | by etrans].
  - intros [= <- <-]. done.
Qed.

Create HintDb quiet.
#[global] Hint Resolve quiet_ret quiet_reject quiet_settle quiet_emit quiet_get_db
  quiet_put_db quiet_draw : quiet.

(** Breaks a computation down to its primitive steps. *)
Ltac quiet_steps :=
  repeat first
    [ progress intros
    | apply quiet_bind
    | solve [eauto with quiet]
    | match goal with
      | |- quiet (match ?x with _ => _ end) => destruct x
      | |- quiet (if ?b then _ else _) => destruct b
      | |- quiet (let '(_, _) := ?x in _) => destruct x
      end ].

Section Quiet.
Context `{Collaborators}.

Lemma quiet_redirect (url : string) : quiet (redirect url).
Proof. unfold redirect. quiet_steps. Qed.

Lemma quiet_sendError code redirectTo forward : quiet (sendError code redirectTo forward).
Proof. unfold sendError. quiet_steps. Qed.

Lemma quiet_nested_links userId data : quiet (nested_links userId data).
Proof. induction data as [|i rest IH]; simpl; quiet_steps. Qed.

Lemma quiet_authUserProviders provider providerUserId :
  quiet (gqlSdk_authUserProviders provider providerUserId).
Proof. unfold gqlSdk_authUserProviders. quiet_steps. Qed.

Lemma quiet_updateAuthUserprovider id accessToken refreshToken :
  quiet (gqlSdk_updateAuthUserprovider id accessToken refreshToken).
Proof. unfold gqlSdk_updateAuthUserprovider. quiet_steps. Qed.

Lemma quiet_getUserByEmail email : quiet (getUserByEmail email).
Proof. unfold getUserByEmail. quiet_steps. Qed.

Lemma quiet_insertUserProviderToUser userProvider :
  quiet (gqlSdk_insertUserProviderToUser userProvider).
Proof. unfold gqlSdk_insertUserProviderToUser. quiet_steps. Qed.

Lemma quiet_insertUser user data : quiet (insertUser user data).
Proof.
  unfold insertUser. pose proof quiet_nested_links. quiet_steps.
Qed.

Lemma quiet_getNewRefreshToken userId : quiet (getNewRefreshToken userId).
Proof. unfold getNewRefreshToken. quiet_steps. Qed.

Lemma quiet_conclude redirectTo provider user : quiet (conclude redirectTo provider user).
Proof.
  unfold conclude. pose proof quiet_redirect. pose proof quiet_getNewRefreshToken.
  quiet_steps.
Qed.

End Quiet.

#[global] Hint Resolve quiet_redirect quiet_sendError quiet_nested_links
  quiet_authUserProviders quiet_updateAuthUserprovider quiet_getUserByEmail
  quiet_insertUserProviderToUser quiet_insertUser quiet_getNewRefreshToken
  quiet_conclude : quiet.

(** ** The provider table *)

(** A provider whose flag is off reads as [null], a name the table does not
    have as [undefined]; with every flag off, no name of the table's own
    reads as a configuration. *)
Lemma PROVIDERS_twitter_off castBooleanEnv castStringEnv castStringArrayEnv :
  castBooleanEnv "AUTH_PROVIDER_TWITTER_ENABLED" = false ->
  PROVIDERS castBooleanEnv castStringEnv castStringArrayEnv "twitter" = Null.
Proof. intros Hoff. unfold PROVIDERS, when_enabled. cbn. by rewrite Hoff. Qed.

Lemma PROVIDERS_all_off castStringEnv castStringArrayEnv name :
  name ∉ Object_prototype ->
  truthy_entry (PROVIDERS (fun _ => false) castStringEnv castStringArrayEnv name) = false.
Proof.
  intros Hown. unfold PROVIDERS, when_enabled.
  repeat case_decide; try reflexivity. contradiction.
Qed.

(** ** The callback *)

(** Runs a handler on a world: unfolds the steps down to the primitives. *)
Ltac exec :=
  unfold oauth_callback, initiation, validate_provider, save_handshake, conclude,
    session_open, session_generate, session_close,
    gqlSdk_authUserProviders, gqlSdk_updateAuthUserprovider, getUserByEmail,
    gqlSdk_insertUserProviderToUser, insertUser, getNewRefreshToken,
    sendError, redirect, store_load, store_save, store_destroy, clearCookie,
    settle, reject, emit, get_db, put_db, update_sessions, draw;
  unfold mbind, Async_bind, mret, Async_ret;
  cbn.

Section Callback.
Context `{Collaborators}.

(** The callback starts by destroying the session and clearing its cookie;
    whatever it does next leaves the session store alone. *)
Lemma callback_frame id session w o w' :
  oauth_callback id session w = (o, w') ->
  sessions w' = delete id (sessions w) /\
  exists rest,
    trace w' = trace w ++ SessionDestroy id :: ClearCookie SESSION_NAME :: rest.
Proof.
  intros Hrun. unfold oauth_callback in Hrun.
  match type of Hrun with
  | (_ ≫= (fun _ => _ ≫= (fun _ => ?body))) _ = _ =>
      assert (quiet body) as Hq by quiet_steps;
      change (body {| sessions := delete id (sessions w); db := db w; drawn := drawn w;
                      trace := (trace w ++ [SessionDestroy id])
                                 ++ [ClearCookie SESSION_NAME] |} = (o, w')) in Hrun
  end.
  apply Hq in Hrun as [Hs [rest Ht]]. cbn in Hs, Ht. split; [done|].
  exists rest. rewrite Ht, <- !app_assoc. done.
Qed.

(** A response without a profile ends in the internal error. *)
Lemma callback_without_profile id session w g response :
  s_grant session = Some g ->
  g_response g = Some response ->
  r_profile response = None ->
  let redirectTo := default ENV_AUTH_CLIENT_URL (s_redirectTo session) in
  let answer := SendError "internal-error" (Some redirectTo) true in
  exists warned w',
    oauth_callback id session w = (Resolved answer, w') /\
    trace w' = trace w ++ [SessionDestroy id; ClearCookie SESSION_NAME]
                 ++ warned ++ [Respond answer] /\
    Forall is_warning warned.
Proof.
  intros Hg Hr Hp redirectTo answer. unfold oauth_callback.
  rewrite Hg. simpl. rewrite Hr.
  destruct (truthy_provider (g_provider g)) as [provider|].
  - rewrite Hp. exec.
    eexists [Warn _], _. split; [done|]. cbn. rewrite <- !app_assoc. split; [done|].
    by repeat constructor.
  - exec. eexists [], _. split; [done|]. cbn. rewrite <- !app_assoc. done.
Qed.

End Callback.

Section Linking.
Context `{Collaborators}.

Lemma conclude_run redirectTo provider user w :
  conclude redirectTo provider user w =
    match user with
    | Some u =>
        let url := redirectTo +:+ "?refreshToken=" +:+ uuidv4 (drawn w) in
        (Resolved (Redirect url),
         {| sessions := sessions w; db := db w; drawn := S (drawn w);
            trace := trace w ++ [GetNewRefreshToken (u_id u); Respond (Redirect url)] |})
    | None =>
        let url := cancelled_url redirectTo provider in
        (Resolved (Redirect url),
         {| sessions := sessions w; db := db w; drawn := drawn w;
            trace := trace w ++ [Respond (Redirect url)] |})
    end.
Proof. destruct user; exec; rewrite <- ?app_assoc; reflexivity. Qed.

(** A link of the store that the pair identifies is found by the query. *)
Lemma identified_link_is_found (d : Db) provider providerUserId link :
  link ∈ userProviders d ->
  identifies provider providerUserId link = true ->
  exists found others,
    filter (identifies provider providerUserId) (userProviders d) = found :: others /\
    found ∈ userProviders d /\
    identifies provider providerUserId found = true.
Proof.
  intros Hin Hid.
  assert (link ∈ filter (identifies provider providerUserId) (userProviders d)) as Hf.
  { apply list_elem_of_filter. split; [by apply Is_true_true|done]. }
  destruct (filter _ (userProviders d)) as [|found others] eqn:Hfilter.
  - by apply elem_of_nil in Hf.
  - exists found, others. split; [done|].
    assert (found ∈ filter (identifies provider providerUserId) (userProviders d)) as Hfound
      by (rewrite Hfilter; left).
    apply list_elem_of_filter in Hfound as [Hp Hm]. split; [done|by apply Is_true_true].
Qed.

(** The identity is known: the link is updated and its user concluded with. *)
Lemma callback_known_identity id session w provider response profile link others :
  protocol_complete session provider response profile ->
  filter (identifies provider (p_id profile)) (userProviders (db w)) = link :: others ->
  oauth_callback id session w =
    conclude (default ENV_AUTH_CLIENT_URL (s_redirectTo session)) provider
      (find_user (db w) (up_userId link))
      {| sessions := delete id (sessions w);
         db := with_tables (db w) (users (db w))
                 (set_tokens (up_id link) (r_access_token response)
                    (r_refresh_token response) <$> userProviders (db w));
         drawn := drawn w;
         trace := trace w ++ preamble id provider response profile
                    ++ [UpdateAuthUserprovider (up_id link) (r_access_token response)
                          (r_refresh_token response)] |}.
Proof.
  intros (g & raw & Hg & Hr & Hp & Hraw & Hn) Hf.
  unfold oauth_callback. rewrite Hg. simpl. rewrite Hr, Hp, Hraw.
  exec. rewrite Hn. cbn. rewrite Hf. cbn. rewrite <- !app_assoc. reflexivity.
Qed.

(** The identity is new, the email is known: one link is requested. *)
Lemma callback_known_email id session w provider response profile email user :
  protocol_complete session provider response profile ->
  filter (identifies provider (p_id profile)) (userProviders (db w)) = [] ->
  p_email profile = Some email ->
  find_user_by_email (db w) email = Some user ->
  let redirectTo := default ENV_AUTH_CLIENT_URL (s_redirectTo session) in
  let request := link_request (Some (u_id user)) provider response profile in
  let asked := trace w ++ preamble id provider response profile
                 ++ [GetUserByEmail (Some email); InsertUserProviderToUser request] in
  oauth_callback id session w =
    match on_insert_user_provider (db w) with
    | Accepts =>
        conclude redirectTo provider (Some user)
          {| sessions := delete id (sessions w);
             db := with_tables (db w) (users (db w))
                     (userProviders (db w)
                        ++ [new_link (uuidv4 (drawn w)) (u_id user) request]);
             drawn := S (drawn w);
             trace := asked |}
    | AnswersNull =>
        let answer := SendError "internal-error" (Some redirectTo) true in
        (Resolved answer,
         {| sessions := delete id (sessions w); db := db w; drawn := drawn w;
            trace := asked ++ [Warn "Could not add a provider to user"; Respond answer] |})
    | Fails e =>
        (Rejected e,
         {| sessions := delete id (sessions w); db := db w; drawn := drawn w;
            trace := asked |})
    end.
Proof.
  intros (g & raw & Hg & Hr & Hp & Hraw & Hn) Hf He Hu redirectTo request asked.
  subst redirectTo request asked.
  unfold oauth_callback. rewrite Hg. simpl. rewrite Hr, Hp, Hraw.
  exec. rewrite Hn. cbn. rewrite Hf. cbn. rewrite He, Hu. cbn.
  destruct (on_insert_user_provider (db w)); cbn; rewrite <- ?app_assoc; reflexivity.
Qed.


End Linking.

(** ** Properties of the callback *)

(** C1. Whatever the callback goes on to do, it has destroyed the handshake
    session and cleared its cookie first: after the run, resolved or
    rejected, the session is gone from the store, and the effects of the run
    start with the destruction and the clearing, so that every answer, the
    error answers included, comes after them.  In particular, when the
    protocol result has a response but no profile, the callback resolves to
    the internal-error answer, which redirects to the redirect target with
    that code, after destroying the session, (with a provider in the session)
    one warning, and nothing else. *)
Theorem callback_destroys_session_first `{Collaborators} id session w o w' :
  oauth_callback id session w = (o, w') ->
  (sessions w' = delete id (sessions w) /\
   sessions w' !! id = None /\
   exists rest,
     trace w' = trace w ++ SessionDestroy id :: ClearCookie SESSION_NAME :: rest) /\
  (forall g response,
     s_grant session = Some g ->
     g_response g = Some response ->
     r_profile response = None ->
     let redirectTo := default ENV_AUTH_CLIENT_URL (s_redirectTo session) in
     let answer := SendError "internal-error" (Some redirectTo) true in
     o = Resolved answer /\
     attached_error answer = Some "internal-error" /\
     location answer =
       Some (generateRedirectUrl redirectTo
               [("error", "internal-error");
                ("errorDescription", error_message "internal-error")]) /\
     exists warned,
       trace w' = trace w ++ [SessionDestroy id; ClearCookie SESSION_NAME]
                    ++ warned ++ [Respond answer] /\
       Forall is_warning warned).
Proof.
  intros Hrun. split.
  - destruct (callback_frame _ _ _ _ _ Hrun) as [Hs Ht].
    split; [done|]. split; [|done]. rewrite Hs. apply lookup_delete_eq.
  - intros g response Hg Hr Hp redirectTo answer.
    destruct (callback_without_profile id session w g response Hg Hr Hp)
      as (warned & w1 & Hrun1 & Ht & Hw).
    rewrite Hrun in Hrun1. injection Hrun1 as -> ->.
    repeat split; try done. by exists warned.
Qed.

Lemma callback_destroys_session_first_witness :
  let session := Example.handshake (Some Example.target) (Some (Example.answer None)) in
  let w := Example.world session (Example.store [] [] Accepts Accepts) in
  let run := oauth_callback (H := Example.collaborators) "sid-1" session w in
  sessions w !! "sid-1" = Some session /\
  sessions run.2 !! "sid-1" = None /\
  run.1 = Resolved (SendError "internal-error" (Some Example.target) true).
Proof.
  intros session w run.
  destruct (callback_destroys_session_first (H := Example.collaborators)
              "sid-1" session w run.1 run.2 (surjective_pairing run))
    as [(_ & Hgone & _) Hprofile].
  split; [reflexivity|]. split; [exact Hgone|].
  exact (proj1 (Hprofile _ _ eq_refl eq_refl eq_refl)).
Defined.

(** C2. When the pair (provider, provider user id) of the canonical profile
    identifies a link of the store ([link] is the one the query finds first;
    under the uniqueness invariant, the only one), the callback rewrites the
    tokens of that link with those of the response and changes nothing else
    in the store: the users are the same and no link is added.  It asks for
    no creation and never looks a user up by email.  The user it concludes
    with is the link's: when the store has that user, the refresh token is
    requested for the link's user and the callback redirects with it. *)
Theorem known_identity_updates_its_link `{Collaborators}
    id session w provider response profile link others o w' :
  protocol_complete session provider response profile ->
  filter (identifies provider (p_id profile)) (userProviders (db w)) = link :: others ->
  oauth_callback id session w = (o, w') ->
  let redirectTo := default ENV_AUTH_CLIENT_URL (s_redirectTo session) in
  userProviders (db w') =
    set_tokens (up_id link) (r_access_token response) (r_refresh_token response)
      <$> userProviders (db w) /\
  length (userProviders (db w')) = length (userProviders (db w)) /\
  users (db w') = users (db w) /\
  exists events,
    trace w' = trace w ++ events /\
    UpdateAuthUserprovider (up_id link) (r_access_token response)
      (r_refresh_token response) ∈ events /\
    filter is_creation events = [] /\
    filter is_email_lookup events = [] /\
    forall user, find_user (db w) (up_userId link) = Some user ->
      u_id user = up_userId link /\
      GetNewRefreshToken (up_userId link) ∈ events /\
      o = Resolved (Redirect (redirectTo +:+ "?refreshToken=" +:+ uuidv4 (drawn w))).
Proof.
  intros Hpc Hf Hrun redirectTo.
  rewrite (callback_known_identity _ _ _ _ _ _ _ _ Hpc Hf), conclude_run in Hrun.
  assert (forall user, find_user (db w) (up_userId link) = Some user ->
            u_id user = up_userId link) as Hid.
  { intros user Hu. apply find_some in Hu as [_ Hu]. by apply bool_decide_eq_true in Hu. }
  destruct (find_user (db w) (up_userId link)) as [user|] eqn:Hu;
    cbn in Hrun; injection Hrun as <- <-; cbn.
  - split; [done|]. split; [by rewrite length_fmap|]. split; [done|].
    eexists. split; [by rewrite <- !app_assoc|].
    split; [set_solver|]. split; [done|]. split; [done|].
    intros ? [= <-]. rewrite (Hid user eq_refl). split; [done|]. split; [set_solver|done].
  - split; [done|]. split; [by rewrite length_fmap|]. split; [done|].
    eexists. split; [by rewrite <- !app_assoc|].
    split; [set_solver|]. split; [done|]. split; [done|]. intros ? [=].
Qed.

Lemma known_identity_updates_its_link_witness :
  let session := Example.handshake (Some Example.target)
                   (Some (Example.answer (Some Example.raw_moved))) in
  let w := Example.world session
             (Example.store [Example.ada; Example.grace] [Example.ada_on_github]
                Accepts Accepts) in
  let run := oauth_callback (H := Example.collaborators) "sid-1" session w in
  filter (identifies "github" "42") (userProviders (db w)) = [Example.ada_on_github] /\
  find_user_by_email (db w) "grace@example.org" = Some Example.grace /\
  userProviders (db run.2) =
    [{| up_id := "link-1"; up_userId := "user-ada"; up_providerId := "github";
        up_providerUserId := "42"; up_accessToken := Some "new-access";
        up_refreshToken := Some "new-refresh" |}] /\
  users (db run.2) = [Example.ada; Example.grace] /\
  GetNewRefreshToken "user-ada" ∈ trace run.2 /\
  run.1 = Resolved (Redirect "https://app.example/finish?refreshToken=uuid-0").
Proof.
  intros session w run.
  assert (protocol_complete (H := Example.collaborators) session "github"
            (Example.answer (Some Example.raw_moved))
            {| p_id := "42"; p_email := Some "grace@example.org"; p_displayName := None |})
    as Hcomplete.
  { eexists _, _. repeat split; reflexivity. }
  destruct (known_identity_updates_its_link (H := Example.collaborators)
              "sid-1" session w "github" _ _ Example.ada_on_github [] run.1 run.2
              Hcomplete eq_refl (surjective_pairing run))
    as (Hlinks & _ & Husers & events & Htrace & _ & _ & _ & Huser).
  destruct (Huser Example.ada eq_refl) as (_ & Htoken & Hanswer).
  split; [reflexivity|]. split; [reflexivity|].
  split; [exact Hlinks|]. split; [exact Husers|].
  split; [|exact Hanswer].
  rewrite Htrace. apply elem_of_app. right. exact Htoken.
Defined.

(** C3. When the pair identifies no link of the store but the email of the
    profile is that of a user of the store, the callback asks for exactly one
    creation: a link for that user, carrying the provider, the provider user
    id and the tokens of the response.  It creates no user: the users are the
    same afterwards.  The store performing the insertion, the links are those
    of before followed by the new one, which belongs to that user, and the
    callback redirects with a refresh token.  (The store answering nothing,
    no link is added and the answer is the internal error; the request
    failing, the callback rejects.) *)
Theorem known_email_gains_one_link `{Collaborators}
    id session w provider response profile email user o w' :
  protocol_complete session provider response profile ->
  filter (identifies provider (p_id profile)) (userProviders (db w)) = [] ->
  p_email profile = Some email ->
  find_user_by_email (db w) email = Some user ->
  oauth_callback id session w = (o, w') ->
  let redirectTo := default ENV_AUTH_CLIENT_URL (s_redirectTo session) in
  let request := link_request (Some (u_id user)) provider response profile in
  users (db w') = users (db w) /\
  (exists events,
     trace w' = trace w ++ events /\
     filter is_creation events = [InsertUserProviderToUser request]) /\
  match on_insert_user_provider (db w) with
  | Accepts =>
      userProviders (db w') =
        userProviders (db w) ++ [new_link (uuidv4 (drawn w)) (u_id user) request] /\
      o = Resolved (Redirect (redirectTo +:+ "?refreshToken=" +:+ uuidv4 (S (drawn w))))
  | AnswersNull =>
      userProviders (db w') = userProviders (db w) /\
      o = Resolved (SendError "internal-error" (Some redirectTo) true)
  | Fails e =>
      userProviders (db w') = userProviders (db w) /\ o = Rejected e
  end.
Proof.
  intros Hpc Hf He Hu Hrun redirectTo request.
  rewrite (callback_known_email _ _ _ _ _ _ _ _ Hpc Hf He Hu) in Hrun.
  destruct (on_insert_user_provider (db w)) eqn:Hv;
    rewrite ?conclude_run in Hrun; cbn in Hrun; injection Hrun as <- <-; cbn.
  all: split; [done|]; split; [|done].
  all: eexists; split; [by rewrite <- ?app_assoc|done].
Qed.

Lemma known_email_gains_one_link_witness :
  let session := Example.handshake (Some Example.target)
                   (Some (Example.answer (Some Example.raw_ada))) in
  let w := Example.world session (Example.store [Example.ada] [] Accepts Accepts) in
  let run := oauth_callback (H := Example.collaborators) "sid-1" session w in
  find_user_by_email (db w) "ada@example.org" = Some Example.ada /\
  users (db run.2) = [Example.ada] /\
  userProviders (db run.2) =
    [{| up_id := "uuid-0"; up_userId := "user-ada"; up_providerId := "github";
        up_providerUserId := "42"; up_accessToken := Some "new-access";
        up_refreshToken := Some "new-refresh" |}] /\
  run.1 = Resolved (Redirect "https://app.example/finish?refreshToken=uuid-1").
Proof.
  intros session w run.
  assert (protocol_complete (H := Example.collaborators) session "github"
            (Example.answer (Some Example.raw_ada))
            {| p_id := "42"; p_email := Some "ada@example.org"; p_displayName := None |})
    as Hcomplete.
  { eexists _, _. repeat split; reflexivity. }
  destruct (known_email_gains_one_link (H := Example.collaborators)
              "sid-1" session w "github" _ _ "ada@example.org" Example.ada run.1 run.2
              Hcomplete eq_refl eq_refl eq_refl (surjective_pairing run))
    as (Husers & _ & Hlinks & Hanswer).
  split; [reflexivity|]. split; [exact Husers|]. split; [exact Hlinks|exact Hanswer].
Defined.



(** C5. A failed creation is not always surfaced as the internal error.  The
    store answering nothing to the insertion of a link, the callback answers
    with the code internal-error; the store answering nothing to the
    insertion of a new user, the callback falls through to its last redirect,
    whose code is the placeholder [error], and no internal error is sent.
    (A request to the store that fails outright rejects the callback, which
    then answers nothing.) *)
Theorem user_creation_failure_is_not_internal_error :
  let session := Example.handshake (Some Example.target)
                   (Some (Example.answer (Some Example.raw_ada))) in
  let link_refused :=
    oauth_callback (H := Example.collaborators) "sid-1" session
      (Example.world session (Example.store [Example.ada] [] AnswersNull Accepts)) in
  let user_refused :=
    oauth_callback (H := Example.collaborators) "sid-1" session
      (Example.world session (Example.store [] [] Accepts AnswersNull)) in
  let user_failed :=
    oauth_callback (H := Example.collaborators) "sid-1" session
      (Example.world session (Example.store [] [] Accepts (Fails "connection lost"))) in
  link_refused.1 = Resolved (SendError "internal-error" (Some Example.target) true) /\
  user_refused.1 =
    Resolved (Redirect
      "https://app.example/finish?error=error&provider=github&errorDescription=error_description") /\
  users (db user_refused.2) = [] /\
  userProviders (db user_refused.2) = [] /\
  (attached_error <$> filter_response (trace user_refused.2)) = [Some "error"] /\
  user_failed.1 = Rejected "connection lost" /\
  filter_response (trace user_failed.2) = [].
Proof. vm_compute. repeat split; reflexivity. Qed.

(** C6. The callback can attach a code outside the four documented ones: when
    it ends without a user (here the store answered nothing to the insertion
    of the new user), the redirect carries [error=error], the placeholder
    that [||] prefers to [invalid-request]. *)
Theorem cancelled_redirect_carries_unlisted_code :
  let session := Example.handshake (Some Example.target)
                   (Some (Example.answer (Some [("id", "7")]))) in
  let run :=
    oauth_callback (H := Example.collaborators) "sid-1" session
      (Example.world session (Example.store [Example.ada] [] Accepts AnswersNull)) in
  js_or "error" "invalid-request" = "error" /\
  exists answer code,
    run.1 = Resolved answer /\
    attached_error answer = Some code /\
    code ∉ surfaced_codes.
Proof.
  split; [reflexivity|].
  eexists _, "error". split; [vm_compute; reflexivity|]. split; [vm_compute; reflexivity|].
  unfold surfaced_codes. rewrite !not_elem_of_cons. repeat split; try discriminate.
  apply not_elem_of_nil.
Qed.

(** C7 does not hold as stated: a normaliser that fails on a profile without
    id makes the callback reject; the callback sends no answer and logs no
    warning. *)
Lemma normaliser_failure_is_not_answered :
  let session := Example.handshake (Some Example.target)
                   (Some (Example.answer (Some [("email", "ada@example.org")]))) in
  let run :=
    oauth_callback (H := Example.collaborators) "sid-1" session
      (Example.world session (Example.store [] [] Accepts Accepts)) in
  normaliseProfile (Collaborators := Example.collaborators) "github"
    (Example.answer (Some [("email", "ada@example.org")])) = Rejected "profile-missing" /\
  run.1 = Rejected "profile-missing" /\
  filter is_response (trace run.2) = [] /\
  filter is_warning (trace run.2) = [].
Proof. vm_compute. repeat split; reflexivity. Qed.

(** C7, amended. When the normaliser fails on the raw profile, the failure
    propagates: the callback rejects with the normaliser's reason.  By then
    it has destroyed the session and cleared its cookie, and it does nothing
    else: no answer is sent, no warning is logged, the user store is
    untouched. *)
Theorem normaliser_failure_rejects_callback `{Collaborators}
    id session w g response raw provider reason o w' :
  s_grant session = Some g ->
  g_response g = Some response ->
  truthy_provider (g_provider g) = Some provider ->
  r_profile response = Some raw ->
  normaliseProfile provider response = Rejected reason ->
  oauth_callback id session w = (o, w') ->
  o = Rejected reason /\
  trace w' = trace w ++ [SessionDestroy id; ClearCookie SESSION_NAME] /\
  filter_response (trace w') = filter_response (trace w) /\
  filter is_warning (trace w') = filter is_warning (trace w) /\
  sessions w' = delete id (sessions w) /\
  db w' = db w.
Proof.
  intros Hg Hr Hp Hraw Hn Hrun. unfold oauth_callback in Hrun.
  rewrite Hg in Hrun. simpl in Hrun. rewrite Hr, Hp, Hraw in Hrun.
  revert Hrun. exec. rewrite Hn. cbn. intros [= <- <-]. cbn.
  rewrite <- !app_assoc. split; [done|]. split; [done|].
  unfold filter_response. rewrite omap_app, filter_app. cbn.
  by rewrite !app_nil_r.
Qed.

Lemma normaliser_failure_rejects_callback_witness :
  let session := Example.handshake (Some Example.target)
                   (Some (Example.answer (Some [("email", "ada@example.org")]))) in
  let w := Example.world session (Example.store [] [] Accepts Accepts) in
  let run := oauth_callback (H := Example.collaborators) "sid-1" session w in
  run.1 = Rejected "profile-missing" /\
  trace run.2 = [SessionDestroy "sid-1"; ClearCookie "connect.sid"] /\
  db run.2 = db w.
Proof.
  intros session w run.
  destruct (normaliser_failure_rejects_callback (H := Example.collaborators)
              "sid-1" session w _ _ _ "github" "profile-missing" run.1 run.2
              eq_refl eq_refl eq_refl eq_refl eq_refl (surjective_pairing run))
    as (Ho & Ht & _ & _ & _ & Hdb).
  split; [exact Ho|]. split; [exact Ht|exact Hdb].
Defined.

(** ** Properties of initiation *)

Section Initiation.
Context `{Collaborators}.

Lemma unmodified (s : Session) : bool_decide (s ≠ s) = false.
Proof. apply bool_decide_eq_false_2. auto. Qed.


End Initiation.




(** ** The redirect target, from initiation to the callback *)

Section Target.
Context `{Collaborators}.

Lemma answers_bind {A} target (m : Async A) (k : A -> Async Response) :
  (forall a, answers_to target (k a)) -> answers_to target (m ≫= k).
Proof.
  intros Hk w r w'. rewrite bind_run.
  destruct (m w) as [[a|e] w1]; [apply Hk | discriminate].
Qed.

Lemma answers_sendError target code :
  answers_to target (sendError code (Some target) true).
Proof.
  intros w r w' [= <- _].
  exists (generateRedirectUrl target [("error", code); ("errorDescription", error_message code)]),
    ["error"; "errorDescription"].
  split; [reflexivity|]. split.
  - by exists [("error", code); ("errorDescription", error_message code)].
  - right. split; [by left|]. intros key. rewrite !elem_of_cons. tauto.
Qed.

Lemma answers_conclude target provider user :
  answers_to target (conclude target provider user).
Proof.
  intros w r w'. rewrite conclude_run. destruct user as [u|]; intros [= <- _].
  - exists (target +:+ "?refreshToken=" +:+ uuidv4 (drawn w)), ["refreshToken"].
    split; [reflexivity|]. split; [|by left].
    by exists [("refreshToken", uuidv4 (drawn w))].
  - exists (cancelled_url target provider), ["error"; "provider"; "errorDescription"].
    split; [reflexivity|]. split; [|right; by split; [left|]].
    by exists [("error", "error"); ("provider", provider);
               ("errorDescription", "error_description")].
Qed.

(** Every answer of the callback comes back to the redirect target of the
    session, or to the client URL when the session has none. *)
Lemma callback_comes_back id session :
  answers_to (default ENV_AUTH_CLIENT_URL (s_redirectTo session))
    (oauth_callback id session).
Proof.
  unfold oauth_callback.
  repeat first
    [ progress intros
    | apply answers_sendError
    | apply answers_conclude
    | apply answers_bind
    | match goal with
      | |- answers_to _ (match ?x with _ => _ end) => destruct x
      end ].
Qed.

(** What initiation leaves in the store when it reaches the engine. *)
Lemma initiation_saves_handshake req w query' o w1 :
  reaches_engine req query' ->
  initiation req w = (o, w1) ->
  o = Resolved (Redirect (grant_connect (provider_param req) query').2) /\
  exists id saved,
    sessions w1 !! id = Some saved /\
    s_options saved = Some query' /\
    s_redirectTo saved = redirectToRule (query req).
Proof.
  intros (Hc & Hid & Hsecret & validated & Hv & Hp).
  unfold initiation, validate_provider. rewrite Hc, Hid, Hsecret. cbn [negb orb].
  rewrite bind_run.
  destruct (session_open (cookie req) w) as [[rs|e] w0] eqn:Hopen.
  2: { revert Hopen. destruct (cookie req) as [id|]; exec;
       [destruct (sessions w !! id)|]; discriminate. }
  unfold mbind at 1, Async_bind at 1, mret at 1, Async_ret at 1. cbn beta iota.
  rewrite Hv, Hp. destruct (grant_connect (provider_param req) query') as [state url].
  exec.
  destruct (bool_decide _); destruct (fresh rs); cbn; intros [= <- <-]; cbn;
    (split; [reflexivity|]); eexists _, _;
    (split; [by rewrite ?lookup_insert_eq|done]).
Qed.

End Target.

Section Return.
Context `{Collaborators}.

(** With an engine that always goes to the provider, the whole router is
    initiation. *)
Lemma oauthProviders_initiation req w :
  oauthProviders
    (fun provider query _ =>
       ToProvider (grant_connect provider query).1 (grant_connect provider query).2)
    req w
  = initiation req w.
Proof.
  unfold oauthProviders, initiation. rewrite !bind_run.
  destruct (session_open (cookie req) w) as [[rs|e] w0]; [|reflexivity].
  rewrite !bind_run.
  destruct (validate_provider _ _ w0) as [[[r|]|e] w1]; try reflexivity.
  destruct (queryValidator (query req)) as [r|validated]; [reflexivity|].
  destruct (preRequestProviderMiddleware _ validated) as [r|query']; [reflexivity|].
  rewrite !bind_run.
  destruct (save_handshake _ _ _ _ w1) as [[session|e] w2]; [|reflexivity].
  by destruct (grant_connect (provider_param req) query').
Qed.

(** On the provider's return the middlewares mounted on the provider path
    have run again: the session the callback is handed holds the options and
    the redirect target of the returning request, whatever initiation had
    stored under the same identifier. *)
Lemma return_overwrites_handshake engine req w query' result :
  reaches_engine req query' ->
  let rs := session_of req w in
  engine (provider_param req) query' (s_grant (loaded rs)) = Completed result ->
  oauthProviders engine req w =
    (store_save (sid rs)
       {| s_grant := s_grant (loaded rs); s_options := Some query';
          s_redirectTo := redirectToRule (query req) |};;
     oauth_callback (sid rs)
       {| s_grant := Some result; s_options := Some query';
          s_redirectTo := redirectToRule (query req) |})
      {| sessions := sessions w; db := db w;
         drawn := (if fresh rs then S (drawn w) else drawn w); trace := trace w |}.
Proof.
  intros (Hc & Hid & Hsecret & validated & Hv & Hp) rs. subst rs.
  unfold oauthProviders, validate_provider, session_of.
  rewrite Hc, Hid, Hsecret. cbn [negb orb]. rewrite Hv, Hp.
  destruct w as [ss d n t].
  destruct (cookie req) as [id|]; [cbn [sessions]; destruct (ss !! id) as [s|] eqn:Hs|];
    cbn [sid loaded fresh]; intros He;
    unfold session_open, session_generate, store_load, save_handshake, draw,
      store_save, emit, update_sessions;
    unfold mbind, Async_bind, mret, Async_ret;
    cbn in He; cbn; rewrite ?Hs; cbn; rewrite He; reflexivity.
Qed.

(** Every answer of a returning request comes back to the redirect target
    of the returning request's own query, or to the client URL when that
    query has none. *)
Lemma return_comes_back_to_its_own_target engine req w query' result answer w' :
  reaches_engine req query' ->
  engine (provider_param req) query' (s_grant (loaded (session_of req w))) =
    Completed result ->
  oauthProviders engine req w = (Resolved answer, w') ->
  comes_back_to (default ENV_AUTH_CLIENT_URL (redirectToRule (query req))) answer.
Proof.
  intros Hreach He Hrun.
  rewrite (return_overwrites_handshake engine req w query' result Hreach He) in Hrun.
  rewrite bind_run in Hrun.
  destruct (store_save _ _ _) as [[[]|e] w1]; [|discriminate].
  by apply callback_comes_back in Hrun.
Qed.

End Return.

(** C9. The redirect target supplied at initiation does not come back.
    Initiation stores the target [https://app.example/finish] in the
    handshake session.  The provider's return to the callback path walks
    the middlewares mounted on the provider path again; its query holds the
    provider's code and state and no redirect target, and the middleware
    meant to keep the initial query and redirect target for the callback
    writes those of the returning request over them.  The callback then
    redirects to the client URL, on success and on failure alike, and a user
    it creates is built from the provider's code and state as registration
    options. *)
Theorem redirect_target_is_overwritten_on_return :
  let first := initiation (H := Example.collaborators) (Example.request "github")
                 Example.empty_world in
  let returning :=
    {| cookie := Some "uuid-0"; provider_param := "github";
       query := [("code", "abc"); ("state", "xyz")] |} in
  let completed response :=
    fun (_ : string) (_ : Query) (_ : option GrantSession) =>
      Completed {| g_provider := Some "github"; g_response := Some response |} in
  let success :=
    oauthProviders (H := Example.collaborators)
      (completed (Example.answer (Some Example.raw_ada))) returning first.2 in
  let failure :=
    oauthProviders (H := Example.collaborators)
      (completed (Example.answer None)) returning first.2 in
  first.1 = Resolved (Redirect "https://provider.example/authorize") /\
  sessions first.2 !! "uuid-0" =
    Some {| s_grant := Some {| g_provider := Some "github"; g_response := None |};
            s_options := Some [("redirectTo", Example.target)];
            s_redirectTo := Some Example.target |} /\
  success.1 = Resolved (Redirect "https://client.example?refreshToken=uuid-3") /\
  ~ comes_back_to (H := Example.collaborators) Example.target
      (Redirect "https://client.example?refreshToken=uuid-3") /\
  failure.1 = Resolved (SendError "internal-error" (Some "https://client.example") true) /\
  ~ comes_back_to (H := Example.collaborators) Example.target
      (SendError "internal-error" (Some "https://client.example") true) /\
  (ui_options <$> (u_columns <$> users (db success.2))) =
    [[("code", "abc"); ("state", "xyz")]].
Proof.
  split; [vm_compute; reflexivity|]. split; [vm_compute; reflexivity|].
  split; [vm_compute; reflexivity|]. split.
  { intros (url & keys & Hl & (parameters & _ & Hu) & _).
    injection Hl as <-. cbn in Hu. discriminate Hu. }
  split; [vm_compute; reflexivity|]. split; [|vm_compute; reflexivity].
  intros (url & keys & Hl & (parameters & _ & Hu) & _).
  injection Hl as <-. cbn in Hu. discriminate Hu.
Qed.

(** C10. A callback whose session holds no redirect target runs exactly as if
    the session held the configured client URL: the missing target makes no
    step fail.  Every answer it resolves to, the success redirect and the
    error redirects alike, then comes back to the client URL.  In particular
    a request whose session was lost (it holds nothing of the handshake) is
    answered with the internal error, redirecting to the client URL. *)
Theorem callback_falls_back_to_client_url `{Collaborators} id session w :
  s_redirectTo session = None ->
  oauth_callback id session w =
    oauth_callback id
      {| s_grant := s_grant session; s_options := s_options session;
         s_redirectTo := Some ENV_AUTH_CLIENT_URL |} w /\
  (forall answer w',
     oauth_callback id session w = (Resolved answer, w') ->
     comes_back_to ENV_AUTH_CLIENT_URL answer) /\
  (s_grant session = None ->
   (oauth_callback id session w).1 =
     Resolved (SendError "internal-error" (Some ENV_AUTH_CLIENT_URL) true)).
Proof.
  intros Hnone. split; [|split].
  - unfold oauth_callback. cbn [s_grant s_options s_redirectTo]. rewrite Hnone. reflexivity.
  - intros answer w' Hrun. apply callback_comes_back in Hrun.
    by rewrite Hnone in Hrun.
  - intros Hlost. unfold oauth_callback. rewrite Hlost, Hnone. reflexivity.
Qed.

Lemma callback_falls_back_to_client_url_witness :
  let session :=
    {| s_grant := Some {| g_provider := Some "github";
                          g_response := Some (Example.answer (Some Example.raw_ada)) |};
       s_options := None; s_redirectTo := None |} in
  let w := Example.world session
             (Example.store [Example.ada] [Example.ada_on_github] Accepts Accepts) in
  let run := oauth_callback (H := Example.collaborators) "sid-1" session w in
  let lost := oauth_callback (H := Example.collaborators) "sid-9" empty_session w in
  s_redirectTo session = None /\
  run.1 = Resolved (Redirect "https://client.example?refreshToken=uuid-0") /\
  comes_back_to (H := Example.collaborators) "https://client.example"
    (Redirect "https://client.example?refreshToken=uuid-0") /\
  lost.1 = Resolved (SendError "internal-error" (Some "https://client.example") true).
Proof.
  intros session w run lost.
  destruct (callback_falls_back_to_client_url (H := Example.collaborators)
              "sid-1" session w eq_refl) as (_ & Hback & _).
  destruct (callback_falls_back_to_client_url (H := Example.collaborators)
              "sid-9" empty_session w eq_refl) as (_ & _ & Hlost).
  split; [reflexivity|]. split; [vm_compute; reflexivity|].
  split; [|exact (Hlost eq_refl)].
  apply (Hback _ run.2). vm_compute. reflexivity.
Defined.

(** ** More about the provider table *)

Section Table.
Variable castBooleanEnv : string -> bool.
Variable castStringEnv : string -> string.
Variable castStringArrayEnv : string -> list string -> list string.

(** X11. The table knows eleven names.  Reading a known name gives [null]
    when its own flag is off and an object with fields when it is on.
    Reading a name that every object inherits ([constructor], [toString]
    and the like) gives the inherited value, which is truthy; reading any
    other name gives [undefined]. *)
Theorem PROVIDERS_entry (name : string) :
  match parameter name provider_flags with
  | Some flag =>
      if castBooleanEnv flag
      then exists fields,
             PROVIDERS castBooleanEnv castStringEnv castStringArrayEnv name = Obj fields /\
             fields <> []
      else PROVIDERS castBooleanEnv castStringEnv castStringArrayEnv name = Null
  | None =>
      (name ∈ Object_prototype ->
       PROVIDERS castBooleanEnv castStringEnv castStringArrayEnv name = Inherited name /\
       truthy_entry (PROVIDERS castBooleanEnv castStringEnv castStringArrayEnv name) = true) /\
      (name ∉ Object_prototype ->
       PROVIDERS castBooleanEnv castStringEnv castStringArrayEnv name = Undefined)
  end.
Proof.
  unfold PROVIDERS, when_enabled, provider_flags. cbn [parameter].
  repeat match goal with
  | |- context [decide (name = ?known)] =>
      destruct (decide (name = known)) as [->|?];
      [vm_compute; destruct (castBooleanEnv _);
       [eexists; split; [reflexivity|discriminate] | reflexivity] |]
  end.
  repeat match goal with
  | |- context [decide (?known = name)] =>
      destruct (decide (known = name)) as [<-|?]; [done|]
  end.
  destruct (decide (name ∈ Object_prototype)); split; intros; done.
Qed.

End Table.

(** Unfolding one step, and the lemmas by induction on the string. *)
Lemma has_escaped_newline_cons (c d : ascii) (s : string) :
  has_escaped_newline (String c (String d s)) =
    bool_decide (c = "\"%char /\ d = "n"%char) || has_escaped_newline (String d s).
Proof. reflexivity. Qed.

Lemma has_escaped_newline_after (c : ascii) (s : string) :
  c <> "\"%char -> has_escaped_newline (String c s) = has_escaped_newline s.
Proof.
  intros Hc. destruct s as [|d s]; [reflexivity|].
  rewrite has_escaped_newline_cons, bool_decide_eq_false_2 by tauto. reflexivity.
Qed.

Lemma replace_escaped_newlines_cons (c d : ascii) (s : string) :
  replace_escaped_newlines (String c (String d s)) =
    if decide (c = "\"%char /\ d = "n"%char)
    then String "010"%char (replace_escaped_newlines s)
    else String c (replace_escaped_newlines (String d s)).
Proof. reflexivity. Qed.

Lemma replace_escaped_newlines_head (c : ascii) (s : string) :
  exists rest,
    replace_escaped_newlines (String c s) = String c rest \/
    (c = "\"%char /\ replace_escaped_newlines (String c s) = String "010"%char rest).
Proof.
  destruct s as [|d s]; cbn; [eauto|].
  case_decide as Hm; [destruct Hm as [-> ->]|]; eauto.
Qed.

Lemma replace_escaped_newlines_clean_both (s : string) :
  has_escaped_newline (replace_escaped_newlines s) = false /\
  forall c, has_escaped_newline (replace_escaped_newlines (String c s)) = false.
Proof.
  induction s as [|d s [IHs IHc]].
  - split; [reflexivity|intros c; reflexivity].
  - split; [apply IHc|]. intros c.
    rewrite replace_escaped_newlines_cons. case_decide as Hm.
    + rewrite has_escaped_newline_after by discriminate. exact IHs.
    + destruct (replace_escaped_newlines_head d s) as [rest [Hr|[-> Hr]]].
      * specialize (IHc d). rewrite Hr in *.
        rewrite has_escaped_newline_cons, IHc, orb_false_r.
        apply bool_decide_eq_false_2. tauto.
      * specialize (IHc "\"%char). rewrite Hr in *.
        rewrite has_escaped_newline_cons, IHc, orb_false_r.
        apply bool_decide_eq_false_2. intros [_ [=]].
Qed.

Lemma replace_escaped_newlines_unchanged (s : string) :
  (has_escaped_newline s = false -> replace_escaped_newlines s = s) /\
  forall c, has_escaped_newline (String c s) = false ->
            replace_escaped_newlines (String c s) = String c s.
Proof.
  induction s as [|d s [IHs IHc]].
  - split; [reflexivity|intros c _; reflexivity].
  - split; [apply IHc|]. intros c.
    rewrite has_escaped_newline_cons, replace_escaped_newlines_cons.
    intros [Hm Hrest]%orb_false_iff. apply bool_decide_eq_false in Hm.
    rewrite decide_False by done. by rewrite (IHc d Hrest).
Qed.

Lemma replace_escaped_newlines_shorter (s : string) :
  String.length (replace_escaped_newlines s) <= String.length s /\
  forall c, String.length (replace_escaped_newlines (String c s)) <= S (String.length s).
Proof.
  induction s as [|d s [IHs IHc]].
  - split; [reflexivity|intros c; reflexivity].
  - split; [apply IHc|]. intros c.
    rewrite replace_escaped_newlines_cons. case_decide; cbn [String.length].
    + lia.
    + specialize (IHc d). cbn [String.length] in IHc. lia.
Qed.

(** X12. Unescaping the line feeds of a string leaves no backslash followed
    by [n] behind, so unescaping twice is unescaping once; the result is
    never longer than the string. *)
Theorem replace_escaped_newlines_is_thorough (s : string) :
  has_escaped_newline (replace_escaped_newlines s) = false /\
  replace_escaped_newlines (replace_escaped_newlines s) = replace_escaped_newlines s /\
  String.length (replace_escaped_newlines s) <= String.length s.
Proof.
  pose proof (proj1 (replace_escaped_newlines_clean_both s)) as Hclean.
  split; [done|]. split.
  - by apply replace_escaped_newlines_unchanged.
  - apply replace_escaped_newlines_shorter.
Qed.

(** X13. Whatever the environment holds, the Apple entry of the table is
    [null] with the flag off, and with the flag on an object whose private
    key is the configured one unescaped: no backslash followed by [n] is left
    in it, and a key without any is exposed as it is. *)
Theorem apple_private_key_is_unescaped
    (castBooleanEnv : string -> bool) (castStringEnv : string -> string)
    (castStringArrayEnv : string -> list string -> list string) :
  let configured := castStringEnv "AUTH_PROVIDER_APPLE_PRIVATE_KEY" in
  match PROVIDERS castBooleanEnv castStringEnv castStringArrayEnv "apple" with
  | Obj fields =>
      castBooleanEnv "AUTH_PROVIDER_APPLE_ENABLED" = true /\
      exists key,
        field "privateKeyString" fields = Some (Str key) /\
        key = replace_escaped_newlines configured /\
        has_escaped_newline key = false /\
        (has_escaped_newline configured = false -> key = configured)
  | Null => castBooleanEnv "AUTH_PROVIDER_APPLE_ENABLED" = false
  | Undefined | Inherited _ => False
  end.
Proof.
  intros configured. unfold PROVIDERS, when_enabled. cbn.
  destruct (castBooleanEnv "AUTH_PROVIDER_APPLE_ENABLED"); cbn; [|done].
  split; [done|]. eexists. split; [reflexivity|]. split; [reflexivity|].
  split; [apply replace_escaped_newlines_clean_both|].
  apply replace_escaped_newlines_unchanged.
Qed.

(** ** More about the callback *)

(** Runs a handler down every branch: each goal left is one complete run. *)
Ltac leaves := exec; repeat (case_match; simplify_eq/=; exec).

(** Splits on what the session holds of the protocol, down to the profile
    and what the normaliser makes of it. *)
Ltac callback_branches session :=
  unfold oauth_callback;
  destruct (s_grant session) as [g|]; cbn [mbind option_bind];
  [destruct (g_response g) as [response|];
   [destruct (truthy_provider (g_provider g)) as [provider|];
    [destruct (r_profile response) as [raw|];
     [destruct (normaliseProfile provider response) as [profile|reason] |] |] |] |];
  leaves.

Lemma link_identity_set_tokens id accessToken refreshToken (ls : list UserProvider) :
  link_identity <$> (set_tokens id accessToken refreshToken <$> ls) = link_identity <$> ls.
Proof.
  rewrite <- list_fmap_compose. apply list_fmap_ext. intros _ l _.
  unfold set_tokens. cbn. by case_decide.
Qed.

Section MoreCallback.
Context `{Collaborators}.

(** X1. The callback answers exactly once when it resolves, with the answer
    it resolves to and as its last effect, and not at all when it rejects.
    It sets no cookie and saves no session. *)
Theorem callback_answers_once id session w :
  let run := oauth_callback id session w in
  exists events,
    trace run.2 = trace w ++ events /\
    filter_response events = answer_of run.1 /\
    (forall answer, run.1 = Resolved answer -> last events = Some (Respond answer)) /\
    filter is_set_cookie events = [] /\
    filter is_session_save events = [].
Proof.
  intros run. subst run.
  destruct (oauth_callback id session w) as [o w'] eqn:Hrun. cbn [fst snd].
  revert Hrun. callback_branches session.
  all: intros [= <- <-]; cbn; rewrite <- ?app_assoc; eexists.
  all: split; [reflexivity|]; split; [reflexivity|]; split; [|done].
  all: by intros ? [= <-].
Qed.

(** X2. What the callback can answer.  It resolves to the internal error, to
    the redirect that carries a refresh token, or to the redirect of a
    callback that ended without a user, all three on the redirect target of
    the session (the client URL without one); or it rejects, answering
    nothing.  A refresh token is requested once when the answer carries it,
    the token being an identifier drawn during the run, and never
    otherwise. *)
Theorem callback_answer_shapes id session w :
  let run := oauth_callback id session w in
  let redirectTo := default ENV_AUTH_CLIENT_URL (s_redirectTo session) in
  exists events,
    trace run.2 = trace w ++ events /\
    ((run.1 = Resolved (SendError "internal-error" (Some redirectTo) true) /\
      filter is_token_request events = []) \/
     (exists userId n,
        run.1 = Resolved (Redirect (redirectTo +:+ "?refreshToken=" +:+ uuidv4 n)) /\
        filter is_token_request events = [GetNewRefreshToken userId] /\
        drawn w <= n < drawn run.2) \/
     (exists provider,
        truthy_provider (s_grant session ≫= g_provider) = Some provider /\
        run.1 = Resolved (Redirect (cancelled_url redirectTo provider)) /\
        filter is_token_request events = []) \/
     (exists reason,
        run.1 = Rejected reason /\
        filter is_token_request events = [] /\
        filter_response events = [])).
Proof.
  intros run redirectTo. subst run redirectTo.
  destruct (oauth_callback id session w) as [o w'] eqn:Hrun. cbn [fst snd].
  revert Hrun. callback_branches session.
  all: intros [= <- <-]; cbn; rewrite <- ?app_assoc; eexists; (split; [reflexivity|]).
  all: first
    [ left; split; reflexivity
    | right; left; eexists _, _; split; [reflexivity|]; split; [reflexivity|lia]
    | right; right; left; eexists; split; [reflexivity|]; split; reflexivity
    | right; right; right; eexists; split; [reflexivity|]; split; reflexivity ].
Qed.

(** X3. Without a usable protocol result, that is without a response or
    without a provider name (the empty name counting as none), the callback
    destroys the session, clears the cookie and answers the internal error,
    and that is all: no warning, no access to the user store, no identifier
    drawn. *)
Theorem callback_without_result id session w :
  s_grant session ≫= g_response = None \/
  truthy_provider (s_grant session ≫= g_provider) = None ->
  let answer := SendError "internal-error"
                  (Some (default ENV_AUTH_CLIENT_URL (s_redirectTo session))) true in
  oauth_callback id session w =
    (Resolved answer,
     {| sessions := delete id (sessions w); db := db w; drawn := drawn w;
        trace := trace w ++ [SessionDestroy id; ClearCookie SESSION_NAME;
                             Respond answer] |}).
Proof.
  intros Hmissing answer. subst answer. unfold oauth_callback.
  destruct (s_grant session ≫= g_response) as [response|];
    destruct (truthy_provider (s_grant session ≫= g_provider)) as [provider|];
    try (destruct Hmissing; discriminate).
  all: exec; rewrite <- ?app_assoc; reflexivity.
Qed.

(** X4. The callback only adds to the user store.  The users of before are
    still there, unchanged and in place, followed by at most one new user;
    the links of before are still there in place, each with its identifier,
    owner, provider and provider user id (only tokens may differ), followed
    by at most one new link. *)
Theorem callback_store_growth id session w :
  let run := oauth_callback id session w in
  users (db w) `prefix_of` users (db run.2) /\
  length (users (db run.2)) <= S (length (users (db w))) /\
  link_identity <$> userProviders (db w)
    `prefix_of` link_identity <$> userProviders (db run.2) /\
  length (userProviders (db run.2)) <= S (length (userProviders (db w))).
Proof.
  intros run. subst run.
  destruct (oauth_callback id session w) as [o w'] eqn:Hrun. cbn [fst snd].
  revert Hrun. callback_branches session.
  all: intros [= <- <-]; cbn.
  all: rewrite ?fmap_app, ?link_identity_set_tokens, ?length_app, ?length_fmap; cbn.
  all: repeat split; try lia; try done; by apply prefix_app_r.
Qed.

(** X5. Once the profile is normalised, the callback writes the access
    token, the refresh token and the JWT of the provider to the log, as they
    are, before it first reaches the user store. *)
Theorem callback_logs_tokens id session w provider response profile :
  protocol_complete session provider response profile ->
  exists rest,
    trace (oauth_callback id session w).2 =
      trace w ++ [SessionDestroy id; ClearCookie SESSION_NAME;
                  Log "From the prodiver:" (r_access_token response)
                    (r_refresh_token response) (r_jwt response);
                  AuthUserProviders provider (p_id profile)] ++ rest.
Proof.
  intros (g & raw & Hg & Hr & Hp & Hraw & Hn).
  destruct (oauth_callback id session w) as [o w'] eqn:Hrun. cbn [fst snd].
  revert Hrun. unfold oauth_callback. rewrite Hg. cbn [mbind option_bind].
  rewrite Hr, Hp, Hraw. exec. rewrite Hn. leaves.
  all: intros [= <- <-]; cbn; rewrite <- ?app_assoc; eexists; reflexivity.
Qed.

(** X6. A handshake is consumed by its callback.  After any run of the
    callback on a session, that session cannot be loaded again, and a request
    that presents its cookie is handled exactly as a request that presents
    no cookie at all: by the session middleware, by initiation, and by the
    whole router when the engine passes a protocol result on. *)
Theorem consumed_handshake_cannot_be_reopened id session w engine provider q :
  let w' := (oauth_callback id session w).2 in
  let request c := {| cookie := c; provider_param := provider; query := q |} in
  store_load id w' = (Resolved None, w') /\
  session_open (Some id) w' = session_open None w' /\
  initiation (request (Some id)) w' = initiation (request None) w' /\
  oauthProviders engine (request (Some id)) w' =
    oauthProviders engine (request None) w'.
Proof.
  intros w' request.
  assert (sessions w' !! id = None) as Hgone.
  { destruct (callback_frame id session w _ _ (surjective_pairing _)) as [Hs _].
    subst w'. rewrite Hs. apply lookup_delete_eq. }
  assert (session_open (Some id) w' = session_open None w') as Hopen.
  { unfold session_open, store_load. unfold mbind at 1, Async_bind at 1.
    by rewrite Hgone. }
  split; [unfold store_load; by rewrite Hgone|]. split; [exact Hopen|].
  subst request. unfold initiation, oauthProviders. cbn [cookie provider_param query].
  rewrite !(bind_run (session_open _)), Hopen. done.
Qed.

End MoreCallback.

Lemma callback_without_result_witness :
  let session :=
    {| s_grant := Some {| g_provider := Some "";
                          g_response := Some (Example.answer (Some Example.raw_ada)) |};
       s_options := None; s_redirectTo := Some Example.target |} in
  let w := Example.world session (Example.store [] [] Accepts Accepts) in
  truthy_provider (s_grant session ≫= g_provider) = None /\
  oauth_callback (H := Example.collaborators) "sid-1" session w =
    (Resolved (SendError "internal-error" (Some Example.target) true),
     {| sessions := ∅; db := db w; drawn := 0;
        trace := [SessionDestroy "sid-1"; ClearCookie "connect.sid";
                  Respond (SendError "internal-error" (Some Example.target) true)] |}).
Proof.
  intros session w. split; [reflexivity|].
  rewrite (callback_without_result (H := Example.collaborators) "sid-1" session w
             (or_intror eq_refl)).
  vm_compute. reflexivity.
Defined.

Lemma callback_logs_tokens_witness :
  let session := Example.handshake (Some Example.target)
                   (Some (Example.answer (Some Example.raw_ada))) in
  let w := Example.world session (Example.store [] [] Accepts Accepts) in
  exists rest,
    trace (oauth_callback (H := Example.collaborators) "sid-1" session w).2 =
      [SessionDestroy "sid-1"; ClearCookie "connect.sid";
       Log "From the prodiver:" (Some "new-access") (Some "new-refresh") None;
       AuthUserProviders "github" "42"] ++ rest.
Proof.
  intros session w.
  assert (protocol_complete (H := Example.collaborators) session "github"
            (Example.answer (Some Example.raw_ada))
            {| p_id := "42"; p_email := Some "ada@example.org"; p_displayName := None |})
    as Hcomplete.
  { eexists _, _. repeat split; reflexivity. }
  exact (callback_logs_tokens (H := Example.collaborators) "sid-1" session w
           "github" _ _ Hcomplete).
Defined.

(** ** More about initiation *)

Section MoreInitiation.
Context `{Collaborators}.

(** X7. A provider that is configured but lacks its client id or its client
    secret (missing or empty) is refused with the error
    invalid-oauth-configuration, sent with the redirect target of the
    request, after one warning that names the provider.  Nothing of the
    handshake is stored and the user store is not touched; a session
    generated for the request is saved empty, with its cookie. *)
Theorem missing_credentials_are_refused req w fields :
  config (provider_param req) = Obj fields ->
  truthy_setting (field "client_id" fields) = false \/
  truthy_setting (field "client_secret" fields) = false ->
  let answer := SendError "invalid-oauth-configuration" (redirectToRule (query req)) true in
  let rs := session_of req w in
  let run := initiation req w in
  run.1 = Resolved answer /\
  trace run.2 =
    trace w ++ Warn ("Missing client id or secret for provider " +:+ provider_param req)
            :: Respond answer :: untouched_close rs /\
  sessions run.2 = untouched_store rs w /\
  db run.2 = db w.
Proof.
  intros Hc Hmissing answer rs run. subst answer rs run.
  unfold initiation, validate_provider, session_of, untouched_close, untouched_store.
  rewrite Hc. cbn [truthy_entry negb entry_field].
  assert (negb (truthy_setting (field "client_id" fields))
          || negb (truthy_setting (field "client_secret" fields)) = true) as ->.
  { destruct Hmissing as [-> | ->]; [done|apply orb_true_r]. }
  destruct (cookie req) as [id|]; [destruct (sessions w !! id) as [s|] eqn:Hs|];
    exec; rewrite ?Hs; cbn; rewrite ?unmodified; cbn; rewrite <- ?app_assoc; done.
Qed.

(** X8. When the provider is configured with its credentials and one of the
    two validations of the query answers instead of passing the query on,
    that answer ends the request: it is the answer of initiation and the only
    one, nothing of the handshake is stored, the engine is not reached and
    the user store is not touched. *)
Theorem validation_answer_ends_initiation req w answer :
  truthy_entry (config (provider_param req)) = true ->
  truthy_setting (entry_field "client_id" (config (provider_param req))) = true ->
  truthy_setting (entry_field "client_secret" (config (provider_param req))) = true ->
  queryValidator (query req) = inl answer \/
  (exists validated,
     queryValidator (query req) = inr validated /\
     preRequestProviderMiddleware (provider_param req) validated = inl answer) ->
  let rs := session_of req w in
  let run := initiation req w in
  run.1 = Resolved answer /\
  trace run.2 = trace w ++ Respond answer :: untouched_close rs /\
  sessions run.2 = untouched_store rs w /\
  db run.2 = db w.
Proof.
  intros Hc Hid Hsecret Hanswer rs run. subst rs run.
  unfold initiation, validate_provider, session_of, untouched_close, untouched_store.
  rewrite Hc, Hid, Hsecret. cbn [negb orb].
  destruct Hanswer as [Hv | (validated & Hv & Hp)]; rewrite Hv, ?Hp.
  all: destruct (cookie req) as [id|]; [destruct (sessions w !! id) as [s|] eqn:Hs|];
    exec; rewrite ?Hs; cbn; rewrite ?unmodified; cbn; rewrite <- ?app_assoc; done.
Qed.

(** X9. An initiation that reaches the engine answers with the engine's
    redirect to the provider and leaves, under the identifier of the
    request's session, a session made of the engine's protocol state, the
    query as the validations passed it on and the redirect target of the
    request, whatever that session held before.  The handshake is saved
    before the answer is sent; the session cookie is set exactly when the
    session was generated for the request; the user store is not touched. *)
Theorem initiation_hands_over req w query' :
  reaches_engine req query' ->
  let rs := session_of req w in
  let state := (grant_connect (provider_param req) query').1 in
  let url := (grant_connect (provider_param req) query').2 in
  let run := initiation req w in
  run.1 = Resolved (Redirect url) /\
  sessions run.2 =
    <[sid rs := {| s_grant := Some state; s_options := Some query';
                   s_redirectTo := redirectToRule (query req) |}]> (sessions w) /\
  (exists events,
     trace run.2 = trace w ++ SessionSave (sid rs) :: Respond (Redirect url) :: events /\
     filter_response events = [] /\
     filter is_set_cookie events =
       if fresh rs then [SetCookie SESSION_NAME (sid rs)] else []) /\
  db run.2 = db w.
Proof.
  intros (Hc & Hid & Hsecret & validated & Hv & Hp) rs state url run.
  subst rs state url run.
  unfold initiation, validate_provider, session_of.
  rewrite Hc, Hid, Hsecret. cbn [negb orb]. rewrite Hv, Hp.
  destruct (grant_connect (provider_param req) query') as [state url]. cbn [fst snd].
  destruct (cookie req) as [id|]; [destruct (sessions w !! id) as [s|] eqn:Hs|];
    exec; rewrite ?Hs; cbn.
  all: destruct (bool_decide _) eqn:Hmod; cbn; rewrite ?insert_insert_eq, <- ?app_assoc.
  all: try (split; [reflexivity|]; split; [reflexivity|];
            split; [eexists; split; [reflexivity|done] | reflexivity]).
  apply bool_decide_eq_false, dec_stable in Hmod. rewrite <- Hmod. cbn.
  split; [reflexivity|]. split; [reflexivity|]. split; [by exists []|reflexivity].
Qed.

End MoreInitiation.

Lemma missing_credentials_are_refused_witness :
  let run := initiation (H := Example.collaborators) (Example.request "gitlab")
               Example.empty_world in
  truthy_entry (config (Collaborators := Example.collaborators) "gitlab") = true /\
  entry_field "client_id" (config (Collaborators := Example.collaborators) "gitlab") = None /\
  run.1 = Resolved (SendError "invalid-oauth-configuration" (Some Example.target) true) /\
  trace run.2 =
    [Warn "Missing client id or secret for provider gitlab";
     Respond (SendError "invalid-oauth-configuration" (Some Example.target) true);
     SetCookie "connect.sid" "uuid-0"; SessionSave "uuid-0"] /\
  sessions run.2 = {[ "uuid-0" := empty_session ]}.
Proof.
  intros run.
  destruct (missing_credentials_are_refused (H := Example.collaborators)
              (Example.request "gitlab") Example.empty_world _ eq_refl (or_introl eq_refl))
    as (Hanswer & Htrace & Hsessions & _).
  split; [reflexivity|]. split; [reflexivity|]. split; [exact Hanswer|].
  split; [exact Htrace|exact Hsessions].
Defined.

Lemma validation_answer_ends_initiation_witness :
  let req := {| cookie := None; provider_param := "github";
                query := [("redirectTo", Example.target); ("admin", "1")] |} in
  let run := initiation (H := Example.strict) req Example.empty_world in
  queryValidator (Collaborators := Example.strict) (query req) =
    inl (SendError "invalid-request" None false) /\
  run.1 = Resolved (SendError "invalid-request" None false) /\
  sessions run.2 = {[ "uuid-0" := empty_session ]}.
Proof.
  intros req run.
  destruct (validation_answer_ends_initiation (H := Example.strict) req
              Example.empty_world (SendError "invalid-request" None false)
              eq_refl eq_refl eq_refl (or_introl eq_refl))
    as (Hanswer & _ & Hsessions & _).
  split; [reflexivity|]. split; [exact Hanswer|exact Hsessions].
Defined.

Lemma initiation_hands_over_witness :
  let run := initiation (H := Example.collaborators) (Example.request "github")
               Example.empty_world in
  run.1 = Resolved (Redirect "https://provider.example/authorize") /\
  sessions run.2 =
    {[ "uuid-0" :=
         {| s_grant := Some {| g_provider := Some "github"; g_response := None |};
            s_options := Some [("redirectTo", Example.target)];
            s_redirectTo := Some Example.target |} ]} /\
  db run.2 = db Example.empty_world.
Proof.
  intros run.
  assert (reaches_engine (H := Example.collaborators) (Example.request "github")
            [("redirectTo", Example.target)]) as Hreach.
  { repeat split; try reflexivity. eexists. split; reflexivity. }
  destruct (initiation_hands_over (H := Example.collaborators)
              (Example.request "github") Example.empty_world _ Hreach)
    as (Hanswer & Hsessions & _ & Hdb).
  split; [exact Hanswer|]. split; [exact Hsessions|exact Hdb].
Defined.
